(** * Weekly habit tracker (src/main.py): data model, operations and
      derived metrics, embedded in Rocq.

    The tracker keeps three Python objects: [daily_data] (a dict from a
    date string to a day record), [habits] and [task_templates] (lists of
    names).  Every callback of [TrackerApp] mutates them in place; here the
    three objects form a [Store] value that is passed explicitly.  Widgets,
    figures and the logger are not part of the store; what a dialog or an
    entry returns is an argument of the callback that reads it. *)

From Stdlib Require Import ZArith Lia Ascii.
From Stdlib Require Import Floats.SpecFloat.
From stdpp Require Import gmap strings list fin_maps.

Local Open Scope Z_scope.

(** ** Python values *)

(** Exceptions the modelled code can raise. *)
Inductive exn :=
  | KeyError (k : string)
  | ValueError
  | ZeroDivisionError
  | OverflowError.

Inductive result (A : Type) :=
  | Ok (a : A)
  | Raise (e : exn).
Arguments Ok {A} a.
Arguments Raise {A} e.

Definition rbind {A B} (r : result A) (k : A → result B) : result B :=
  match r with
  | Ok a => k a
  | Raise e => Raise e
  end.

Notation "x ←r c ;; k" := (rbind c (λ x, k))
  (at level 100, c at next level, right associativity).

(** *** Strings

    A [str] is modelled by [string]; each character is a code point below
    256.  [isspace] is [str.isspace] on those code points. *)

Definition isspace (c : ascii) : bool :=
  let n := Z.of_nat (nat_of_ascii c) in
  ((9 <=? n) && (n <=? 13)) || ((28 <=? n) && (n <=? 32))
  || (n =? 133) || (n =? 160).

Fixpoint lstrip (s : string) : string :=
  match s with
  | EmptyString => EmptyString
  | String c s' => if isspace c then lstrip s' else s
  end.

Fixpoint rstrip (s : string) : string :=
  match s with
  | EmptyString => EmptyString
  | String c s' =>
      match rstrip s' with
      | EmptyString => if isspace c then EmptyString else String c EmptyString
      | r => String c r
      end
  end.

(** [s.strip()] *)
Definition strip (s : string) : string := rstrip (lstrip s).

(** Truth value of a string: [if s:] *)
Definition truthy (s : string) : bool :=
  match s with
  | EmptyString => false
  | String _ _ => true
  end.

Fixpoint all_space (s : string) : bool :=
  match s with
  | EmptyString => true
  | String c s' => isspace c && all_space s'
  end.

(** *** Lists *)

(** [x in l] *)
Definition py_in (x : string) (l : list string) : bool := bool_decide (x ∈ l).

(** [l.index(x)]: the first position of [x], [ValueError] when absent. *)
Fixpoint py_index (x : string) (l : list string) : result nat :=
  match l with
  | [] => Raise ValueError
  | y :: l' => if decide (y = x) then Ok 0%nat
               else (i ←r py_index x l' ;; Ok (S i))
  end.

(** [l.remove(x)]: drops the first occurrence, [ValueError] when absent. *)
Fixpoint py_remove (x : string) (l : list string) : result (list string) :=
  match l with
  | [] => Raise ValueError
  | y :: l' => if decide (y = x) then Ok l'
               else (r ←r py_remove x l' ;; Ok (y :: r))
  end.

(** [sum(1 for t in l if p(t))] *)
Fixpoint sum_ones {A} (p : A → bool) (l : list A) : Z :=
  match l with
  | [] => 0
  | t :: l' => (if p t then 1 else 0) + sum_ones p l'
  end.

(** *** Dicts *)

(** [d.get(k, dflt)] *)
Definition dict_get (d : gmap string bool) (k : string) (dflt : bool) : bool :=
  default dflt (d !! k).

(** [d.pop(k, dflt)]: the value and the dict without the key. *)
Definition dict_pop (d : gmap string bool) (k : string) (dflt : bool)
  : bool * gmap string bool :=
  (default dflt (d !! k), delete k d).

(** [{k: False for k in l}] *)
Definition dict_all_false (l : list string) : gmap string bool :=
  foldl (λ d k, <[k := false]> d) ∅ l.

(** *** Floats

    Python's [float] is IEEE 754 binary64; [SpecFloat] gives its operations
    with rounding to nearest even. *)

Definition prec : Z := 53.
Definition emax : Z := 1024.

(** [float(n)]; exact for [|n| < 2^53], which covers every list length. *)
Definition float_of_int (n : Z) : spec_float :=
  binary_normalize prec emax n 0 false.

(** [a / b] on ints *)
Definition py_truediv (a b : Z) : result spec_float :=
  if b =? 0 then Raise ZeroDivisionError
  else Ok (SFdiv prec emax (float_of_int a) (float_of_int b)).

(** [x * n] with [x] a float and [n] an int *)
Definition py_mul (x : spec_float) (n : Z) : spec_float :=
  SFmul prec emax x (float_of_int n).

(** [x / n] with [x] a float and [n] a non-zero int literal *)
Definition py_fdiv (x : spec_float) (n : Z) : spec_float :=
  SFdiv prec emax x (float_of_int n).

(** [int(x)]: truncation towards zero. *)
Definition py_int (x : spec_float) : result Z :=
  match x with
  | S754_zero _ => Ok 0
  | S754_infinity _ => Raise OverflowError
  | S754_nan => Raise ValueError
  | S754_finite s m e =>
      let a := match e with
               | Zneg p => Z.shiftr (Zpos m) (Zpos p)
               | _ => Z.shiftl (Zpos m) e
               end in
      Ok (if s then - a else a)
  end.

(** [int((c / t) * 100)], the expression behind every percentage. *)
Definition percent_of (c t : Z) : result Z :=
  q ←r py_truediv c t ;; py_int (py_mul q 100).

(** *** Dates

    A date is its proleptic Gregorian ordinal ([date.toordinal()], day 1 is
    0001-01-01); the time of day of [datetime.now()] never reaches a key. *)

Definition weekday (d : Z) : Z := (d + 6) mod 7.

Definition timedelta (days : Z) : Z := days.

(** Year, month and day of an ordinal. *)
Definition ymd (d : Z) : Z * Z * Z :=
  let z := d + 305 in
  let era := z / 146097 in
  let doe := z - era * 146097 in
  let yoe := (doe - doe / 1460 + doe / 36524 - doe / 146096) / 365 in
  let doy := doe - (365 * yoe + yoe / 4 - yoe / 100) in
  let mp := (5 * doy + 2) / 153 in
  let day := doy - (153 * mp + 2) / 5 + 1 in
  let month := if mp <? 10 then mp + 3 else mp - 9 in
  let year := yoe + era * 400 + (if month <=? 2 then 1 else 0) in
  (year, month, day).

Definition digit (n : Z) : ascii := ascii_of_nat (48 + Z.to_nat (n mod 10)).

Definition digits2 (n : Z) : string :=
  String (digit (n / 10)) (String (digit n) EmptyString).

Definition digits4 (n : Z) : string :=
  String (digit (n / 1000)) (String (digit (n / 100)) (digits2 n)).

(** [d.strftime("%Y-%m-%d")], for the years 1000 to 9999 *)
Definition strftime (d : Z) : string :=
  let '(y, m, dd) := ymd d in
  digits4 y +:+ "-" +:+ digits2 m +:+ "-" +:+ digits2 dd.

(** ** The store *)

Module Day.

(** One value of [daily_data]: the dict with keys ["tasks"],
    ["task_status"] and ["habits"]. *)
Record t := mk {
  tasks : list string;
  task_status : gmap string bool;
  habits : gmap string bool
}.

Definition with_habits (f : gmap string bool → gmap string bool) (r : t) : t :=
  mk (tasks r) (task_status r) (f (habits r)).

End Day.

Record Store := mkStore {
  daily_data : gmap string Day.t;
  habits : list string;
  task_templates : list string
}.

(** *** Callbacks: state that survives an exception *)

Definition M (A : Type) : Type := Store → result A * Store.

Definition mret {A} (a : A) : M A := λ s, (Ok a, s).

Definition mbind {A B} (m : M A) (k : A → M B) : M B :=
  λ s, match m s with
       | (Ok a, s') => k a s'
       | (Raise e, s') => (Raise e, s')
       end.

Definition get : M Store := λ s, (Ok s, s).
Definition put (s' : Store) : M unit := λ _, (Ok tt, s').
Definition lift {A} (r : result A) : M A := λ s, (r, s).

(** [try: body / except Exception: handler] *)
Definition try_except {A} (body : M A) (handler : exn → M A) : M A :=
  λ s, match body s with
       | (Raise e, s') => handler e s'
       | done => done
       end.

Notation "x ←m c ;; k" := (mbind c (λ x, k))
  (at level 100, c at next level, right associativity).

(** [self.daily_data[date]] *)
Definition day_at (date : string) : M Day.t :=
  s ←m get ;;
  match daily_data s !! date with
  | Some r => mret r
  | None => lift (Raise (KeyError date))
  end.

(** [self.daily_data[date] = r] and in-place updates of that record *)
Definition set_day (date : string) (r : Day.t) : M unit :=
  s ←m get ;;
  put (mkStore (<[date := r]> (daily_data s)) (habits s) (task_templates s)).

(** Tk runs a callback and hands what it raises to
    [report_callback_exception], which [__init__] replaces by a handler
    that writes the exception to the log. *)
Definition tk_callback (cb : M unit) (s : Store) : Store * list exn :=
  match cb s with
  | (Ok _, s') => (s', [])
  | (Raise e, s') => (s', [e])
  end.

(** The lists [__init__] falls back to when the file gives none. *)
Definition default_habits : list string :=
  ["Erta uyg'onish"; "Shirnitik yemashlik"; "Sovuq dush"; "O'qish"; "Gym";
   "Kod yozish"; "Ingliz tili"]%string.

Definition default_task_templates : list string :=
  ["Vazifa 1"; "Vazifa 2"; "Vazifa 3"; "Vazifa 4"; "Vazifa 5"]%string.

(** ** Week initialisation *)

(** [DataManager.get_week_start] *)
Definition get_week_start (date : Z) : Z := date - timedelta (weekday date).

(** [(week_start + timedelta(days=i)).strftime("%Y-%m-%d")] *)
Definition week_date (week_start i : Z) : string :=
  strftime (week_start + timedelta i).

(** [range(7)] *)
Definition range7 : list Z := seqZ 0 7.

(** The body of the inner loop: [if habit not in habits: habits[habit] = False] *)
Definition ensure_habit (h : gmap string bool) (habit : string)
  : gmap string bool :=
  match h !! habit with
  | None => <[habit := false]> h
  | Some _ => h
  end.

(** The body of the loop of [initialize_week_data] for one date. *)
Definition initialize_day (date : string) (s : Store) : Store :=
  match daily_data s !! date with
  | None =>
      mkStore
        (<[date := Day.mk (task_templates s)
                     (dict_all_false (task_templates s))
                     (dict_all_false (habits s))]> (daily_data s))
        (habits s) (task_templates s)
  | Some r =>
      mkStore
        (<[date := Day.with_habits (λ h, foldl ensure_habit h (habits s)) r]>
           (daily_data s))
        (habits s) (task_templates s)
  end.

(** [TrackerApp.initialize_week_data] *)
Definition initialize_week_data (week_start : Z) (s : Store) : Store :=
  foldl (λ s i, initialize_day (week_date week_start i) s) s range7.

(** What [__init__] does with the clock: the week start, then the week. *)
Definition initializeWeek (today : Z) (s : Store) : Store :=
  initialize_week_data (get_week_start today) s.

(** ** Toggles *)

(** [TrackerApp.update_habit]; [status] is [bool(var.get())]. *)
Definition update_habit (habit date : string) (status : bool) : M unit :=
  r ←m day_at date ;;
  set_day date (Day.with_habits (λ h, <[habit := status]> h) r).

(** [TrackerApp.update_task] *)
Definition update_task (task date : string) (status : bool) : M unit :=
  r ←m day_at date ;;
  set_day date (Day.mk (Day.tasks r) (<[task := status]> (Day.task_status r))
                  (Day.habits r)).

(** ** Habits *)

(** [TrackerApp.add_habit_global]; [entry] is [self.add_entry.get()]. *)
Definition add_habit_global (entry : string) (s : Store) : Store :=
  let text := strip entry in
  if negb (truthy text) then s
  else if py_in text (habits s) then s
  else
    mkStore (Day.with_habits (λ h, <[text := false]> h) <$> daily_data s)
      (habits s ++ [text]) (task_templates s).

(** [TrackerApp.add_habit_inline]; [entry] is
    [self.inline_habit_entry.get()]. *)
Definition add_habit_inline (entry : string) (s : Store) : Store :=
  let new_habit := strip entry in
  if truthy new_habit then
    if py_in new_habit (habits s) then s
    else
      mkStore (Day.with_habits (λ h, <[new_habit := false]> h) <$> daily_data s)
        (habits s ++ [new_habit]) (task_templates s)
  else s.

(** One day of the loop of [edit_habit]. *)
Definition rename_in_day (old_habit new_habit : string) (r : Day.t) : Day.t :=
  Day.with_habits
    (λ h, let '(val, h') := dict_pop h old_habit false in
          <[new_habit := val]> h') r.

(** [TrackerApp.edit_habit]; [dialog] is [dialog.get_input()], [None] when
    the dialog is cancelled. *)
Definition edit_habit (old_habit : string) (dialog : option string) : M unit :=
  try_except
    (match dialog with
     | Some new_habit =>
         if truthy new_habit && truthy (strip new_habit)
            && negb (bool_decide (new_habit = old_habit))
         then
           let new_habit := strip new_habit in
           s ←m get ;;
           if py_in new_habit (habits s) then mret tt
           else
             idx ←m lift (py_index old_habit (habits s)) ;;
             put (mkStore (rename_in_day old_habit new_habit <$> daily_data s)
                    (<[idx := new_habit]> (habits s)) (task_templates s))
         else mret tt
     | None => mret tt
     end)
    (λ _, mret tt).

(** [TrackerApp.delete_habit]; [confirm] is the answer of [askyesno]. *)
Definition delete_habit (habit : string) (confirm : bool) : M unit :=
  s ←m get ;;
  if py_in habit (habits s) then
    if confirm then
      l ←m lift (py_remove habit (habits s)) ;;
      put (mkStore
             (Day.with_habits (λ h, (dict_pop h habit false).2) <$> daily_data s)
             l (task_templates s))
    else mret tt
  else mret tt.

(** ** Tasks *)

(** [TrackerApp.add_task_template]; [entry] is [self.add_entry.get()]. *)
Definition add_task_template (entry : string) (s : Store) : Store :=
  let text := strip entry in
  if negb (truthy text) then s
  else if py_in text (task_templates s) then s
  else
    mkStore
      ((λ r, Day.mk (Day.tasks r ++ [text])
               (<[text := false]> (Day.task_status r)) (Day.habits r))
         <$> daily_data s)
      (habits s) (task_templates s ++ [text]).

(** [TrackerApp.add_task_to_day] *)
Definition add_task_to_day (date : string) (dialog : option string) : M unit :=
  match dialog with
  | Some new_task =>
      if truthy new_task && truthy (strip new_task) then
        let new_task := strip new_task in
        r ←m day_at date ;;
        if py_in new_task (Day.tasks r) then mret tt
        else
          set_day date (Day.mk (Day.tasks r ++ [new_task])
                          (<[new_task := false]> (Day.task_status r))
                          (Day.habits r))
      else mret tt
  | None => mret tt
  end.

(** ** Derived metrics *)

(** [len(l)] *)
Definition len {A} (l : list A) : Z := Z.of_nat (length l).

(** [sum(1 for t in tasks if task_status.get(t, False))] *)
Definition completed_of (r : Day.t) : Z :=
  sum_ones (λ t, dict_get (Day.task_status r) t false) (Day.tasks r).

(** The three lines shared by the donut of a day ([update_all_charts]) and
    its bar ([create_bar_chart_section], [update_bar_chart]). *)
Definition day_percent (r : Day.t) : result Z :=
  let tasks := Day.tasks r in
  let completed := completed_of r in
  let total := match tasks with [] => 1 | _ => len tasks end in
  percent_of completed total.

(** The donut of [date]: [None] is the [continue] of the loop. *)
Definition donut_percent (s : Store) (date : string) : option (result Z) :=
  day_percent <$> daily_data s !! date.

(** The bar of [date]: 0 for a date without record. *)
Definition bar_percent (s : Store) (date : string) : result Z :=
  match daily_data s !! date with
  | Some r => day_percent r
  | None => Ok 0
  end.

(** The loop that accumulates [total_tasks] and [completed_tasks]. *)
Definition weekly_counts (week_start : Z) (s : Store) : Z * Z :=
  foldl (λ '(total_tasks, completed_tasks) i,
           match daily_data s !! week_date week_start i with
           | Some r => (total_tasks + len (Day.tasks r),
                        completed_tasks + completed_of r)
           | None => (total_tasks, completed_tasks)
           end) (0, 0) range7.

(** [weekly_percent] of [create_bar_chart_section] and [update_bar_chart] *)
Definition weekly_percent (week_start : Z) (s : Store) : result Z :=
  let '(total_tasks, completed_tasks) := weekly_counts week_start s in
  if 0 <? total_tasks then percent_of completed_tasks total_tasks else Ok 0.

(** The check boxes of one habit row, as [create_habits_section] builds
    them: one variable per day, set from the store. *)
Fixpoint row_vars_from (s : Store) (habit : string) (dates : list string)
  : result (list bool) :=
  match dates with
  | [] => Ok []
  | date :: dates' =>
      match daily_data s !! date with
      | None => Raise (KeyError date)
      | Some r =>
          vars ←r row_vars_from s habit dates' ;;
          Ok (dict_get (Day.habits r) habit false :: vars)
      end
  end.

Definition habit_row_vars (week_start : Z) (s : Store) (habit : string)
  : result (list bool) :=
  row_vars_from s habit (week_date week_start <$> range7).

(** The percentage of one habit row in [update_all_charts]:
    [d_idx in row_vars and row_vars[d_idx].get()] over [range(7)]. *)
Definition habit_percent (row_vars : list bool) : result Z :=
  let completed :=
    sum_ones (λ d_idx, match row_vars !! d_idx with
                       | Some v => v
                       | None => false
                       end) (seq 0 7) in
  percent_of completed 7.

(** [DataManager.calculate_habit_completion_rate]: no [int(...)] here, the
    result is a float.  No caller exists in the program. *)
Definition calculate_habit_completion_rate
  (daily_data : gmap string Day.t) (habit : string) (week_start : Z)
  : result spec_float :=
  let completed :=
    sum_ones (λ i, match daily_data !! week_date week_start i with
                   | Some r => match Day.habits r !! habit with
                               | Some v => v
                               | None => false
                               end
                   | None => false
                   end) range7 in
  q ←r py_truediv completed 7 ;; Ok (py_mul q 100).

(** ** The remaining callbacks *)

(** [TrackerApp.edit_task]; [dialog] is [dialog.get_input()]. *)
Definition edit_task (old_task date : string) (dialog : option string) : M unit :=
  try_except
    (match dialog with
     | Some new_task =>
         if truthy new_task && truthy (strip new_task)
            && negb (bool_decide (new_task = old_task))
         then
           let new_task := strip new_task in
           r ←m day_at date ;;
           if py_in new_task (Day.tasks r) then mret tt
           else
             t_idx ←m lift (py_index old_task (Day.tasks r)) ;;
             let '(val, status) := dict_pop (Day.task_status r) old_task false in
             set_day date (Day.mk (<[t_idx := new_task]> (Day.tasks r))
                             (<[new_task := val]> status) (Day.habits r))
         else mret tt
     | None => mret tt
     end)
    (λ _, mret tt).

(** [TrackerApp.delete_task]; [confirm] is the answer of [askyesno]. *)
Definition delete_task (task date : string) (confirm : bool) : M unit :=
  try_except
    (if confirm then
       r ←m day_at date ;;
       if py_in task (Day.tasks r) then
         l ←m lift (py_remove task (Day.tasks r)) ;;
         set_day date (Day.mk l (dict_pop (Day.task_status r) task false).2
                         (Day.habits r))
       else mret tt
     else mret tt)
    (λ _, mret tt).

(** [TrackerApp.clear_all_habits]; [confirm] is asked only for a non-empty
    list. *)
Definition clear_all_habits (confirm : bool) (s : Store) : Store :=
  match habits s with
  | [] => s
  | _ :: _ =>
      if confirm then
        mkStore (Day.with_habits (λ _, ∅) <$> daily_data s) [] (task_templates s)
      else s
  end.

(** [has_tasks] of [clear_all_tasks]: a template, or a day with a task. *)
Definition has_tasks (s : Store) : bool :=
  (0 <? len (task_templates s))
  || existsb (λ '(_, r), match Day.tasks r with [] => false | _ => true end)
       (map_to_list (daily_data s)).

(** [TrackerApp.clear_all_tasks] *)
Definition clear_all_tasks (confirm : bool) (s : Store) : Store :=
  if negb (has_tasks s) then s
  else if confirm then
    mkStore ((λ r, Day.mk [] ∅ (Day.habits r)) <$> daily_data s) (habits s) []
  else s.

(** What [__init__] reads from the loaded document: each of the three keys
    may be missing. *)
Record StoredData := mkStored {
  stored_daily_data : option (gmap string Day.t);
  stored_habits : option (list string);
  stored_task_templates : option (list string)
}.


(** The data part of [__init__]; [now] is the date of [datetime.now()]. *)
Definition startup (stored_data : StoredData) (now : Z) : Store :=
  initialize_week_data (get_week_start now)
    (mkStore (default ∅ (stored_daily_data stored_data))
       (default default_habits (stored_habits stored_data))
       (default default_task_templates (stored_task_templates stored_data))).

(** The text under a day's task list: [completed] and [total], with
    [len(tasks) if tasks else 0]. *)
Definition daily_stats (r : Day.t) : Z * Z :=
  (completed_of r, match Day.tasks r with [] => 0 | _ => len (Day.tasks r) end).



(** The label of a habit or task row: [name if len(name) <= 18 else
    name[:15] + "..."]. *)
Definition display_name (name : string) : string :=
  if (String.length name <=? 18)%nat then name
  else String.substring 0 15 name +:+ "...".

(** [ThemeManager]: the state is [current_theme]. *)
Module ThemeManager.

Definition LIGHT_MODE : gmap string string :=
  list_to_map
    [("bg", "#F4F6F9"); ("frame", "#FFFFFF"); ("text", "#333333");
     ("accent", "#2FA572"); ("accent_light", "#A0D9C1");
     ("border", "#E0E0E0"); ("error", "#E74C3C"); ("warning", "#F39C12");
     ("success", "#27AE60")]%string.

Definition DARK_MODE : gmap string string :=
  list_to_map
    [("bg", "#1a1a1a"); ("frame", "#2d2d2d"); ("text", "#E0E0E0");
     ("accent", "#2FA572"); ("accent_light", "#A0D9C1");
     ("border", "#404040"); ("error", "#E74C3C"); ("warning", "#F39C12");
     ("success", "#27AE60")]%string.

Definition get (current_theme key : string) : string :=
  let theme := if bool_decide (current_theme = "light"%string)
               then LIGHT_MODE else DARK_MODE in
  default "#000000"%string (theme !! key).

Definition toggle (current_theme : string) : string :=
  if bool_decide (current_theme = "light"%string) then "dark"%string
  else "light"%string.

Definition is_dark (current_theme : string) : bool :=
  bool_decide (current_theme = "dark"%string).

End ThemeManager.

(** Any callback of the running application, with any argument. *)
Inductive step : Store → Store → Prop :=
  | step_update_habit habit date v s :
      step s (update_habit habit date v s).2
  | step_update_task task date v s :
      step s (update_task task date v s).2
  | step_add_habit_global entry s :
      step s (add_habit_global entry s)
  | step_add_habit_inline entry s :
      step s (add_habit_inline entry s)
  | step_edit_habit old_habit dialog s :
      step s (edit_habit old_habit dialog s).2
  | step_delete_habit habit confirm s :
      step s (delete_habit habit confirm s).2
  | step_clear_all_habits confirm s :
      step s (clear_all_habits confirm s)
  | step_add_task_template entry s :
      step s (add_task_template entry s)
  | step_add_task_to_day date dialog s :
      step s (add_task_to_day date dialog s).2
  | step_edit_task old_task date dialog s :
      step s (edit_task old_task date dialog s).2
  | step_delete_task task date confirm s :
      step s (delete_task task date confirm s).2
  | step_clear_all_tasks confirm s :
      step s (clear_all_tasks confirm s).

(** Every global habit has a flag in every day record. *)
Definition habits_covered (s : Store) : Prop :=
  ∀ date r h, daily_data s !! date = Some r → h ∈ habits s →
              is_Some (Day.habits r !! h).

(** The invariant of the data model. *)
Definition well_formed (s : Store) : Prop :=
  NoDup (habits s) ∧ NoDup (task_templates s) ∧ habits_covered s.

(** A callback that rewrites at most one day record and keeps its flags. *)
Definition one_day_update (s s' : Store) : Prop :=
  s' = s
  ∨ ∃ date r r',
      daily_data s !! date = Some r
      ∧ (∀ h, is_Some (Day.habits r !! h) → is_Some (Day.habits r' !! h))
      ∧ s' = mkStore (<[date := r']> (daily_data s)) (habits s)
               (task_templates s).

(** ** The quantities of the specification

    These definitions follow the words of the specification; the theorems
    below compare them with the code above. *)

(** Number of entries of [l] equal to [x]. *)
Definition occurrences (x : string) (l : list string) : nat :=
  length (filter (λ y, y = x) l).

(** totalTaskCount: the number of entries of the day's [tasks] list. *)
Definition totalTaskCount (r : Day.t) : Z :=
  Z.of_nat (length (Day.tasks r)).

(** completedTaskCount: the number of names of the [tasks] list whose
    [task_status] entry is true. *)
Definition completedTaskCount (r : Day.t) : Z :=
  Z.of_nat (length (filter (λ t, Day.task_status r !! t = Some true) (Day.tasks r))).

(** The truncated percentage [completed / total * 100], 0 for no task. *)
Definition truncated_percent (completed total : Z) : Z :=
  if total =? 0 then 0 else (100 * completed) / total.

(** Is the flag of [habit] true on [date]? *)
Definition habit_flag (s : Store) (habit date : string) : bool :=
  match daily_data s !! date with
  | Some r => bool_decide (Day.habits r !! habit = Some true)
  | None => false
  end.

(** trueCount: the number of the 7 displayed days with a true flag. *)
Definition trueCount (week_start : Z) (s : Store) (habit : string) : Z :=
  Z.of_nat (length (List.filter (λ i, habit_flag s habit (week_date week_start i)) range7)).

(** Sums over the existing records of the 7 displayed days. *)
Definition week_sum (f : Day.t → Z) (week_start : Z) (s : Store) : Z :=
  foldr Z.add 0
    ((λ i, match daily_data s !! week_date week_start i with
           | Some r => f r
           | None => 0
           end) <$> range7).

(** A name that [strip] leaves alone and that is not empty. *)
Definition trimmed (x : string) : Prop := strip x = x ∧ x ≠ EmptyString.

(** The record a date without data gets from [initialize_week_data]. *)
Definition fresh_day (s : Store) : Day.t :=
  Day.mk (task_templates s) (dict_all_false (task_templates s))
    (dict_all_false (habits s)).

(** The record of [date] once the loop body has run for it. *)
Definition initialized_day (s : Store) (date : string) : Day.t :=
  match daily_data s !! date with
  | None => fresh_day s
  | Some r => Day.with_habits (λ h, foldl ensure_habit h (habits s)) r
  end.

(** ** Tables checked by evaluation *)

Definition result_is (r : result Z) (v : Z) : bool :=
  match r with
  | Ok a => a =? v
  | Raise _ => false
  end.

(** [percent_of c t] against the exact quotient for [1 <= t <= bound]. *)
Definition percent_table (bound : Z) : bool :=
  forallb (λ t, forallb (λ c, result_is (percent_of c t) (100 * c / t))
                  (seqZ 0 (t + 1)))
    (seqZ 1 bound).

(** ** Concrete stores used by the examples *)

Definition monday : Z := 739040.

(** Fifty tasks ["t00"] ... ["t49"], the first [done] of them completed. *)
Definition numbered_tasks : list string :=
  (λ i, String "t" (digits2 i)) <$> seqZ 0 50.

Definition busy_day (done : nat) : Day.t :=
  Day.mk numbered_tasks
    (foldl (λ d t, <[t := true]> d) (dict_all_false numbered_tasks)
       (take done numbered_tasks))
    ∅.

Definition busy_store : Store :=
  mkStore {[ strftime monday := busy_day 29 ]} [] [].

(** Monday as above, the six other days of the week without any task. *)
Definition busy_week : Store := initialize_week_data monday busy_store.

Definition empty_store : Store := mkStore ∅ [] [].

Definition orphan_store : Store :=
  mkStore
    {[ strftime monday :=
         Day.mk [] ∅ (<["Read"%string := true]> {["Sleep"%string := false]}) ]}
    ["Sleep"%string] [].

Definition untrimmed_store : Store :=
  mkStore {[ strftime monday := Day.mk [] ∅ {[" Gym"%string := true]} ]}
    [" Gym"%string] [].

Definition seed_store : Store :=
  mkStore ∅ ["Sleep"%string; "Read"%string] ["A"%string; "B"%string; "C"%string].

(** A fresh week in which ["Sleep"] is ticked on three days. *)
Definition sleepy_week : Store :=
  let s0 := initialize_week_data monday seed_store in
  let s1 := (update_habit "Sleep" "2024-06-03" true s0).2 in
  let s2 := (update_habit "Sleep" "2024-06-05" true s1).2 in
  (update_habit "Sleep" "2024-06-08" true s2).2.

(** A fresh week with one task added to Tuesday only. *)
Definition daytask_week : Store :=
  (add_task_to_day "2024-06-04" (Some "Call home"%string)
     (initialize_week_data monday seed_store)).2.

(** * Properties *)

(** ** Worked examples *)

Example strftime_2024_06_03 : strftime monday = "2024-06-03"%string.
Proof. reflexivity. Qed.

Example strftime_leap_day : strftime 738945 = "2024-02-29"%string.
Proof. reflexivity. Qed.

Example strftime_year_end : strftime 738885 = "2023-12-31"%string.
Proof. reflexivity. Qed.

Example strftime_1900_03_01 : strftime 693655 = "1900-03-01"%string.
Proof. reflexivity. Qed.

Example week_start_of_wednesday : get_week_start 739042 = monday.
Proof. reflexivity. Qed.

Example strip_inner_space : strip "  a b  "%string = "a b"%string.
Proof. reflexivity. Qed.

Example percent_2_of_3 : percent_of 2 3 = Ok 66.
Proof. vm_compute. reflexivity. Qed.

Example percent_3_of_7 : percent_of 3 7 = Ok 42.
Proof. vm_compute. reflexivity. Qed.

Example percent_29_of_50 : percent_of 29 50 = Ok 57.
Proof. vm_compute. reflexivity. Qed.

(** Scenario 1 of the specification: three templates, [A] and [B] toggled
    on Monday 2024-06-03. *)
Example scenario_two_of_three :
  let s0 := initializeWeek monday seed_store in
  let s1 := (update_task "A" "2024-06-03" true s0).2 in
  let s2 := (update_task "B" "2024-06-03" true s1).2 in
  donut_percent s2 "2024-06-03" = Some (Ok 66).
Proof. vm_compute. reflexivity. Qed.

(** ** Strings *)

Lemma lstrip_all_space s : all_space s = true → lstrip s = EmptyString.
Proof.
  induction s as [|c s IH]; simpl; [done|].
  intros [Hc Hs]%andb_prop. rewrite Hc. auto.
Qed.

Lemma strip_all_space s : all_space s = true → strip s = EmptyString.
Proof. intros H. unfold strip. by rewrite lstrip_all_space. Qed.

Lemma truthy_true s : s ≠ EmptyString → truthy s = true.
Proof. by destruct s. Qed.

(** ** Lists *)

Lemma py_in_true x l : x ∈ l → py_in x l = true.
Proof. intros H. unfold py_in. by apply bool_decide_eq_true. Qed.

Lemma py_in_false x l : x ∉ l → py_in x l = false.
Proof. intros H. unfold py_in. by apply bool_decide_eq_false. Qed.

Lemma py_index_middle x (l1 l2 : list string) :
  x ∉ l1 → py_index x (l1 ++ x :: l2) = Ok (length l1).
Proof.
  induction l1 as [|y l1 IH]; simpl; intros Hx.
  - by rewrite decide_True.
  - apply not_elem_of_cons in Hx as [Hne Hx].
    rewrite decide_False by congruence. by rewrite IH.
Qed.

Lemma py_remove_middle x (l1 l2 : list string) :
  x ∉ l1 → py_remove x (l1 ++ x :: l2) = Ok (l1 ++ l2).
Proof.
  induction l1 as [|y l1 IH]; simpl; intros Hx.
  - by rewrite decide_True.
  - apply not_elem_of_cons in Hx as [Hne Hx].
    rewrite decide_False by congruence. by rewrite IH.
Qed.

Lemma first_occurrence x (l : list string) :
  x ∈ l → ∃ l1 l2, l = l1 ++ x :: l2 ∧ x ∉ l1.
Proof.
  induction l as [|y l IH]; [by intros ?%elem_of_nil|].
  destruct (decide (y = x)) as [->|Hne].
  - intros _. exists [], l. split; [done|]. apply not_elem_of_nil.
  - intros [?|Hin]%elem_of_cons; [congruence|].
    destruct (IH Hin) as (l1 & l2 & -> & Hl1).
    exists (y :: l1), l2. split; [done|].
    apply not_elem_of_cons. split; [congruence | done].
Qed.

Lemma occurrences_app x l1 l2 :
  occurrences x (l1 ++ l2) = (occurrences x l1 + occurrences x l2)%nat.
Proof. unfold occurrences. by rewrite filter_app, length_app. Qed.

Lemma occurrences_cons_eq x l : occurrences x (x :: l) = S (occurrences x l).
Proof. unfold occurrences. by rewrite filter_cons_True. Qed.

Lemma occurrences_absent x l : x ∉ l → occurrences x l = 0%nat.
Proof.
  induction l as [|y l IH]; [done|].
  intros [Hne Hx]%not_elem_of_cons. unfold occurrences in *.
  rewrite filter_cons_False by congruence. auto.
Qed.

Lemma occurrences_NoDup x l : NoDup l → x ∈ l → occurrences x l = 1%nat.
Proof.
  intros Hnd Hin. destruct (first_occurrence x l Hin) as (l1 & l2 & -> & Hl1).
  apply NoDup_app in Hnd as (_ & _ & Hnd). apply NoDup_cons in Hnd as [Hl2 _].
  rewrite occurrences_app, occurrences_cons_eq.
  rewrite !occurrences_absent by done. lia.
Qed.

(** ** Dicts *)

Lemma insert_false_fold_lookup (l : list string) (d : gmap string bool) k :
  foldl (λ d k, <[k := false]> d) d l !! k
  = if decide (k ∈ l) then Some false else d !! k.
Proof.
  revert d. induction l as [|x l IH]; intros d; cbn [foldl].
  - case_decide as Hin; [by apply elem_of_nil in Hin | done].
  - rewrite IH. destruct (decide (x = k)) as [->|Hne].
    + rewrite lookup_insert_eq. rewrite (decide_True _ _ (list_elem_of_here k l)).
      by case_decide.
    + rewrite lookup_insert_ne by done.
      destruct (decide (k ∈ l)) as [Hin|Hnin].
      * by rewrite decide_True by (by right).
      * rewrite decide_False; [done|].
        intros [?|?]%elem_of_cons; [congruence | done].
Qed.

Lemma dict_all_false_lookup l k :
  dict_all_false l !! k = if decide (k ∈ l) then Some false else None.
Proof. unfold dict_all_false. by rewrite insert_false_fold_lookup, lookup_empty. Qed.

(** ** Percentages *)

Lemma percent_table_sound bound c t :
  percent_table bound = true →
  0 ≤ c ≤ t → 1 ≤ t ≤ bound → percent_of c t = Ok (100 * c / t).
Proof.
  unfold percent_table. intros Htab Hc Ht.
  rewrite forallb_forall in Htab.
  assert (Hrow : In t (seqZ 1 bound)) by (apply list_elem_of_In, elem_of_seqZ; lia).
  apply Htab in Hrow. rewrite forallb_forall in Hrow.
  assert (Hcol : In c (seqZ 0 (t + 1))) by (apply list_elem_of_In, elem_of_seqZ; lia).
  apply Hrow in Hcol. unfold result_is in Hcol.
  destruct (percent_of c t) as [a|e]; [|done].
  apply Z.eqb_eq in Hcol. by subst.
Qed.

Lemma percent_table_49 : percent_table 49 = true.
Proof. vm_compute. reflexivity. Qed.

(** Up to 49 entries the float expression gives the exact quotient. *)
Lemma percent_of_exact c t :
  0 ≤ c ≤ t → 1 ≤ t < 50 → percent_of c t = Ok (100 * c / t).
Proof.
  intros Hc Ht. apply (percent_table_sound 49); [apply percent_table_49 | lia | lia].
Qed.

Lemma py_int_no_zero_division x : py_int x ≠ Raise ZeroDivisionError.
Proof. by destruct x. Qed.

Lemma percent_of_no_zero_division c t :
  t ≠ 0 → percent_of c t ≠ Raise ZeroDivisionError.
Proof.
  intros Ht. unfold percent_of, py_truediv.
  destruct (Z.eqb_spec t 0) as [?|_]; [done|]. simpl.
  apply py_int_no_zero_division.
Qed.

Lemma sum_ones_count (d : gmap string bool) (l : list string) :
  sum_ones (λ t, dict_get d t false) l
  = Z.of_nat (length (filter (λ t, d !! t = Some true) l)).
Proof.
  induction l as [|t l IH]; [done|]. cbn [sum_ones]. rewrite IH.
  unfold dict_get. destruct (d !! t) as [[|]|] eqn:Ht; simpl.
  - rewrite filter_cons_True by done. simpl length. lia.
  - rewrite filter_cons_False by (rewrite Ht; congruence). lia.
  - rewrite filter_cons_False by (rewrite Ht; congruence). lia.
Qed.

Lemma completed_of_count r : completed_of r = completedTaskCount r.
Proof. apply sum_ones_count. Qed.

Lemma completed_le_total r : 0 ≤ completedTaskCount r ≤ totalTaskCount r.
Proof.
  unfold completedTaskCount, totalTaskCount.
  pose proof (length_filter (λ t, Day.task_status r !! t = Some true) (Day.tasks r)).
  lia.
Qed.

Lemma sum_ones_ext {A} (p q : A → bool) (l : list A) :
  (∀ x, x ∈ l → p x = q x) → sum_ones p l = sum_ones q l.
Proof.
  induction l as [|x l IH]; [done|]. intros H. cbn [sum_ones].
  rewrite (H x) by left. rewrite IH; [done|]. intros y Hy. apply H. by right.
Qed.

Lemma day_percent_unfold r :
  day_percent r
  = percent_of (completedTaskCount r)
      (if totalTaskCount r =? 0 then 1 else totalTaskCount r).
Proof.
  unfold day_percent, totalTaskCount, len. rewrite completed_of_count.
  by destruct (Day.tasks r).
Qed.

(** ** Daily and weekly task rates *)

(** C1 (failing input): on a day with 50 tasks of which 29 are done the
    donut and the bar show 57, while the truncated percentage 29/50*100 is
    58: the float product (29/50)*100 is 57.99999999999999. *)
Lemma day_rate_29_of_50 :
  daily_data busy_week !! "2024-06-03"%string = Some (busy_day 29)
  ∧ totalTaskCount (busy_day 29) = 50
  ∧ completedTaskCount (busy_day 29) = 29
  ∧ truncated_percent 29 50 = 58
  ∧ donut_percent busy_week "2024-06-03" = Some (Ok 57)
  ∧ bar_percent busy_week "2024-06-03" = Ok 57.
Proof. vm_compute. repeat split; reflexivity. Qed.

(** What the code computes for a day: for a date with a record, the donut
    and the bar of the day
    show [int((completed / total) * 100)] evaluated in binary64, where total
    is the length of the day's tasks list (1 in its place when the list is
    empty) and completed counts the names of that list whose task_status
    entry is true (a missing key counts as false).  The value is the exact
    truncated percentage whenever the list has fewer than 50 entries, it is 0
    for an empty list, task_status keys outside the list change nothing, and
    no ZeroDivisionError is raised. *)
Theorem day_completion_rate s date r :
  daily_data s !! date = Some r →
  donut_percent s date = Some (day_percent r)
  ∧ bar_percent s date = day_percent r
  ∧ day_percent r
    = percent_of (completedTaskCount r)
        (if totalTaskCount r =? 0 then 1 else totalTaskCount r)
  ∧ (totalTaskCount r < 50 →
     day_percent r
     = Ok (truncated_percent (completedTaskCount r) (totalTaskCount r)))
  ∧ (Day.tasks r = [] → day_percent r = Ok 0)
  ∧ (∀ r', Day.tasks r' = Day.tasks r →
           (∀ t, t ∈ Day.tasks r →
                 Day.task_status r' !! t = Day.task_status r !! t) →
           day_percent r' = day_percent r)
  ∧ day_percent r ≠ Raise ZeroDivisionError.
Proof.
  intros Hr. unfold donut_percent, bar_percent. rewrite Hr. simpl.
  split; [done|]. split; [done|]. split; [apply day_percent_unfold|].
  split; [|split; [|split]].
  - intros Hlt. rewrite day_percent_unfold. unfold truncated_percent.
    pose proof (completed_le_total r) as Hle.
    destruct (Z.eqb_spec (totalTaskCount r) 0) as [H0|Hne].
    + assert (completedTaskCount r = 0) as -> by lia. by vm_compute.
    + apply percent_of_exact; unfold totalTaskCount in *; lia.
  - intros Hnil. unfold day_percent, completed_of. rewrite Hnil. by vm_compute.
  - intros r' Htasks Hstatus. unfold day_percent, completed_of.
    rewrite Htasks. f_equal. apply sum_ones_ext.
    intros t Ht. unfold dict_get. by rewrite Hstatus.
  - rewrite day_percent_unfold. apply percent_of_no_zero_division.
    destruct (Z.eqb_spec (totalTaskCount r) 0); lia.
Qed.

Lemma day_completion_rate_witness :
  donut_percent (initializeWeek monday seed_store) "2024-06-03"
  = Some (day_percent (fresh_day seed_store))
  ∧ day_percent (fresh_day seed_store) = Ok 0.
Proof.
  pose proof (day_completion_rate (initializeWeek monday seed_store)
                "2024-06-03" (fresh_day seed_store)) as H.
  destruct H as (Hdonut & _ & _ & Hexact & _).
  - vm_compute. reflexivity.
  - split; [exact Hdonut|]. rewrite Hexact; [reflexivity | vm_compute; reflexivity].
Defined.

Lemma weekly_counts_fold (s : Store) (week_start : Z) (l : list Z) (t0 c0 : Z) :
  foldl (λ '(total_tasks, completed_tasks) i,
           match daily_data s !! week_date week_start i with
           | Some r => (total_tasks + len (Day.tasks r),
                        completed_tasks + completed_of r)
           | None => (total_tasks, completed_tasks)
           end) (t0, c0) l
  = (t0 + foldr Z.add 0
            ((λ i, match daily_data s !! week_date week_start i with
                   | Some r => totalTaskCount r
                   | None => 0
                   end) <$> l),
     c0 + foldr Z.add 0
            ((λ i, match daily_data s !! week_date week_start i with
                   | Some r => completedTaskCount r
                   | None => 0
                   end) <$> l)).
Proof.
  revert t0 c0. induction l as [|i l IH]; intros t0 c0; cbn [foldl fmap list_fmap foldr].
  - f_equal; lia.
  - destruct (daily_data s !! week_date week_start i) as [r|]; rewrite IH.
    + rewrite completed_of_count. unfold len, totalTaskCount. f_equal; lia.
    + f_equal; lia.
Qed.

Lemma weekly_counts_sums week_start s :
  weekly_counts week_start s
  = (week_sum totalTaskCount week_start s,
     week_sum completedTaskCount week_start s).
Proof. unfold weekly_counts. rewrite weekly_counts_fold. reflexivity. Qed.

Lemma week_sum_bounds week_start s :
  0 ≤ week_sum completedTaskCount week_start s
    ≤ week_sum totalTaskCount week_start s.
Proof.
  unfold week_sum. induction range7 as [|i l IH]; cbn [fmap list_fmap foldr]; [lia|].
  destruct (daily_data s !! week_date week_start i) as [r|]; [|lia].
  pose proof (completed_le_total r). lia.
Qed.

(** C7 (failing input): a week whose seven days hold 50 tasks in all, 29
    of them done, shows 57; the truncated percentage 29/50*100 is 58.  The
    expression is the one of the daily percentage. *)
Lemma weekly_rate_29_of_50 :
  week_sum totalTaskCount monday busy_week = 50
  ∧ week_sum completedTaskCount monday busy_week = 29
  ∧ truncated_percent 29 50 = 58
  ∧ weekly_percent monday busy_week = Ok 57.
Proof. vm_compute. repeat split; reflexivity. Qed.

(** What the code computes for the week: weekly_percent accumulates, over
    the records of the 7
    displayed days, the lengths of the tasks lists and the numbers of their
    names whose task_status is true, and shows
    [int(completed / total * 100)] evaluated in binary64; this is the exact
    truncated percentage whenever the seven lists hold fewer than 50 entries
    in all; it is 0 when the total is 0, and no ZeroDivisionError is
    raised. *)
Theorem weekly_task_rate week_start s :
  let total := week_sum totalTaskCount week_start s in
  let completed := week_sum completedTaskCount week_start s in
  weekly_counts week_start s = (total, completed)
  ∧ (total = 0 ∧ weekly_percent week_start s = Ok 0
     ∨ 0 < total ∧ weekly_percent week_start s = percent_of completed total)
  ∧ (total < 50 →
     weekly_percent week_start s = Ok (truncated_percent completed total))
  ∧ weekly_percent week_start s ≠ Raise ZeroDivisionError.
Proof.
  intros total completed.
  pose proof (week_sum_bounds week_start s) as Hb.
  fold total completed in Hb.
  assert (Hw : weekly_percent week_start s
               = if 0 <? total then percent_of completed total else Ok 0).
  { unfold weekly_percent. by rewrite weekly_counts_sums. }
  split; [apply weekly_counts_sums|].
  rewrite Hw. destruct (Z.ltb_spec 0 total) as [Hpos|Hzero].
  - split; [by right|]. split.
    + intros Hlt. unfold truncated_percent.
      destruct (Z.eqb_spec total 0); [lia|]. apply percent_of_exact; lia.
    + apply percent_of_no_zero_division. lia.
  - assert (total = 0) as Ht by lia. split; [by left|]. split; [|done].
    intros _. unfold truncated_percent. by rewrite Ht.
Qed.

(** ** Habit rows *)

Lemma sum_ones_filter {A} (p : A → bool) (l : list A) :
  sum_ones p l = Z.of_nat (length (List.filter p l)).
Proof.
  induction l as [|x l IH]; [done|]. cbn [sum_ones List.filter].
  destruct (p x); simpl length; lia.
Qed.

Lemma sum_ones_fmap {A B} (f : A → B) (p : B → bool) (l : list A) :
  sum_ones p (f <$> l) = sum_ones (p ∘ f) l.
Proof. induction l as [|x l IH]; [done|]. cbn. by rewrite IH. Qed.

Lemma dict_get_flag (s : Store) (habit date : string) (r : Day.t) :
  daily_data s !! date = Some r →
  dict_get (Day.habits r) habit false = habit_flag s habit date.
Proof.
  intros Hr. unfold habit_flag, dict_get. rewrite Hr.
  destruct (Day.habits r !! habit) as [[|]|]; done.
Qed.

Lemma row_vars_from_flags s habit dates row :
  row_vars_from s habit dates = Ok row →
  row = habit_flag s habit <$> dates.
Proof.
  revert row. induction dates as [|date dates IH]; intros row; cbn [row_vars_from].
  - by intros [= <-].
  - destruct (daily_data s !! date) as [r|] eqn:Hr; [|done].
    destruct (row_vars_from s habit dates) as [vars|]; [|done].
    intros [= <-]. cbn. rewrite (IH vars eq_refl). by erewrite dict_get_flag.
Qed.

Lemma habit_percent_true_count week_start s habit row :
  habit_row_vars week_start s habit = Ok row →
  habit_percent row = percent_of (trueCount week_start s habit) 7.
Proof.
  intros Hrow. apply row_vars_from_flags in Hrow. subst row.
  unfold habit_percent, trueCount. rewrite <- sum_ones_filter. reflexivity.
Qed.

Lemma trueCount_bounds week_start s habit : 0 ≤ trueCount week_start s habit ≤ 7.
Proof.
  unfold trueCount.
  pose proof (List.filter_length_le
                (λ i, habit_flag s habit (week_date week_start i)) range7) as H.
  change (length range7) with 7%nat in H. lia.
Qed.

(** C2: the percentage shown for a habit row is (trueCount/7)*100 truncated
    to an integer, trueCount being the number of the 7 displayed days whose
    flag for the habit is true in the store the check boxes were built from;
    three days out of seven give 42. *)
Theorem habit_weekly_rate week_start s habit row :
  habit_row_vars week_start s habit = Ok row →
  habit_percent row = Ok (100 * trueCount week_start s habit / 7)
  ∧ (trueCount week_start s habit = 3 → habit_percent row = Ok 42).
Proof.
  intros Hrow. rewrite (habit_percent_true_count _ _ _ _ Hrow).
  pose proof (trueCount_bounds week_start s habit) as Hb.
  rewrite percent_of_exact by lia.
  split; [done|]. by intros ->.
Qed.

Lemma habit_weekly_rate_witness :
  habit_percent [true; false; true; false; false; true; false] = Ok 42.
Proof.
  pose proof (habit_weekly_rate monday sleepy_week "Sleep"
                [true; false; true; false; false; true; false]) as H.
  destruct H as [_ H]; [vm_compute; reflexivity|].
  apply H. vm_compute. reflexivity.
Defined.

(** X12: the static helper counts the same days but returns the float itself:
    42.857142857142854 for three days out of seven; truncating it gives the
    percentage of the row. *)
Lemma calculate_habit_completion_rate_int week_start s habit :
  (x ←r calculate_habit_completion_rate (daily_data s) habit week_start ;;
   py_int x)
  = Ok (100 * trueCount week_start s habit / 7).
Proof.
  pose proof (trueCount_bounds week_start s habit) as Hb.
  rewrite <- (percent_of_exact _ 7) by lia.
  unfold calculate_habit_completion_rate, percent_of.
  assert (Hc : sum_ones
                 (λ i, match daily_data s !! week_date week_start i with
                       | Some r => match Day.habits r !! habit with
                                   | Some v => v
                                   | None => false
                                   end
                       | None => false
                       end) range7
               = trueCount week_start s habit).
  { unfold trueCount. rewrite <- sum_ones_filter. apply sum_ones_ext.
    intros i _. unfold habit_flag.
    destruct (daily_data s !! week_date week_start i) as [r|]; [|done].
    destruct (Day.habits r !! habit) as [[|]|]; done. }
  rewrite Hc. by destruct (py_truediv (trueCount week_start s habit) 7).
Qed.

Example calculate_habit_completion_rate_3_of_7 :
  calculate_habit_completion_rate (daily_data sleepy_week) "Sleep" monday
  = Ok (S754_finite false 6031606643799771 (-47)).
Proof. vm_compute. reflexivity. Qed.

(** ** Week initialisation *)

Lemma week_start_is_monday today :
  weekday (get_week_start today) = 0
  ∧ get_week_start today ≤ today < get_week_start today + 7.
Proof.
  unfold get_week_start, timedelta, weekday.
  pose proof (Z.mod_pos_bound (today + 6) 7 ltac:(lia)) as Hb.
  split; [|lia].
  replace (today - (today + 6) mod 7 + 6) with (7 * ((today + 6) / 7)).
  - rewrite Z.mul_comm. apply Z.mod_mul. lia.
  - pose proof (Z.div_mod (today + 6) 7 ltac:(lia)). lia.
Qed.

Lemma ensure_fold_lookup (hs : list string) (h : gmap string bool) k :
  foldl ensure_habit h hs !! k
  = match h !! k with
    | Some v => Some v
    | None => if decide (k ∈ hs) then Some false else None
    end.
Proof.
  revert h. induction hs as [|x hs IH]; intros h; cbn [foldl].
  - destruct (h !! k); [done|]. case_decide as Hin; [by apply elem_of_nil in Hin | done].
  - rewrite IH. unfold ensure_habit.
    destruct (decide (x = k)) as [->|Hne].
    + rewrite (decide_True _ _ (list_elem_of_here k hs)).
      destruct (h !! k) as [v|] eqn:Hk; [by rewrite Hk|].
      by rewrite lookup_insert_eq.
    + assert (Hk : (match h !! x with
                    | Some _ => h
                    | None => <[x := false]> h
                    end) !! k = h !! k).
      { destruct (h !! x); [done|]. by rewrite lookup_insert_ne. }
      rewrite Hk. destruct (h !! k); [done|].
      destruct (decide (k ∈ hs)) as [Hin|Hnin].
      * by rewrite decide_True by (by right).
      * rewrite decide_False; [done|].
        intros [?|?]%elem_of_cons; [congruence | done].
Qed.

Lemma ensure_fold_complete (hs : list string) (h : gmap string bool) :
  (∀ k, k ∈ hs → is_Some (h !! k)) → foldl ensure_habit h hs = h.
Proof.
  intros Hall. apply map_eq. intros k. rewrite ensure_fold_lookup.
  destruct (h !! k) as [v|] eqn:Hk; [done|].
  case_decide as Hin; [|done].
  destruct (Hall k Hin) as [v Hv]. congruence.
Qed.

Lemma initialize_day_store date s :
  initialize_day date s
  = mkStore (<[date := initialized_day s date]> (daily_data s))
      (habits s) (task_templates s).
Proof.
  unfold initialize_day, initialized_day, fresh_day.
  by destruct (daily_data s !! date).
Qed.

Lemma initialized_day_habits s date k :
  k ∈ habits s → is_Some (Day.habits (initialized_day s date) !! k).
Proof.
  intros Hk. unfold initialized_day, fresh_day.
  destruct (daily_data s !! date) as [r|]; simpl.
  - rewrite ensure_fold_lookup. destruct (Day.habits r !! k); [done|].
    by rewrite decide_True.
  - rewrite dict_all_false_lookup. by rewrite decide_True.
Qed.

Lemma initialized_day_again s date date' :
  initialized_day (initialize_day date s) date' = initialized_day s date'.
Proof.
  rewrite initialize_day_store. unfold initialized_day at 1. simpl.
  destruct (decide (date = date')) as [->|Hne].
  - rewrite lookup_insert_eq.
    destruct (initialized_day s date') as [ts st hb] eqn:Hday.
    unfold Day.with_habits. simpl. f_equal.
    apply ensure_fold_complete. intros k Hk.
    pose proof (initialized_day_habits s date' k Hk) as Hsome.
    by rewrite Hday in Hsome.
  - rewrite lookup_insert_ne by done. reflexivity.
Qed.

Lemma initialize_days_lookup (dates : list string) (s : Store) (date : string) :
  let s' := foldl (λ s d, initialize_day d s) s dates in
  habits s' = habits s
  ∧ task_templates s' = task_templates s
  ∧ daily_data s' !! date
    = if decide (date ∈ dates) then Some (initialized_day s date)
      else daily_data s !! date.
Proof.
  revert s. induction dates as [|d dates IH]; intros s; cbn [foldl].
  - split; [done|]. split; [done|].
    case_decide as Hin; [by apply elem_of_nil in Hin | done].
  - destruct (IH (initialize_day d s)) as (Hh & Ht & Hd).
    rewrite Hh, Ht, Hd. rewrite initialized_day_again.
    rewrite initialize_day_store. simpl. split; [done|]. split; [done|].
    destruct (decide (date ∈ dates)) as [Hin|Hnin].
    + by rewrite decide_True by (by right).
    + destruct (decide (d = date)) as [->|Hne].
      * rewrite lookup_insert_eq. by rewrite decide_True by (by left).
      * rewrite lookup_insert_ne by done.
        rewrite decide_False; [done|].
        intros [?|?]%elem_of_cons; [congruence | done].
Qed.

Lemma initialize_week_data_lookup week_start s date :
  let s' := initialize_week_data week_start s in
  habits s' = habits s
  ∧ task_templates s' = task_templates s
  ∧ daily_data s' !! date
    = if decide (date ∈ week_date week_start <$> range7)
      then Some (initialized_day s date)
      else daily_data s !! date.
Proof.
  unfold initialize_week_data.
  rewrite <- (foldl_fmap (λ s d, initialize_day d s) s range7 (week_date week_start)).
  apply initialize_days_lookup.
Qed.

(** C4: after initializeWeek(today) each of the 7 dates of the week has a
    record.  A date without record before gets the task templates as its
    tasks list and all-false task_status and habits maps over the templates
    and the global habit list; a date with a record keeps its tasks,
    task_status and habit flags and gains a false flag for every global
    habit it lacked.  In both cases every global habit is a key of the habits
    map, and the two global lists are unchanged. *)
Theorem week_is_materialized today s i :
  0 ≤ i < 7 →
  let date := week_date (get_week_start today) i in
  let s' := initializeWeek today s in
  ∃ r', daily_data s' !! date = Some r'
    ∧ match daily_data s !! date with
      | None =>
          Day.tasks r' = task_templates s
          ∧ (∀ k, Day.task_status r' !! k
                  = if decide (k ∈ task_templates s) then Some false else None)
          ∧ (∀ k, Day.habits r' !! k
                  = if decide (k ∈ habits s) then Some false else None)
      | Some r =>
          Day.tasks r' = Day.tasks r
          ∧ Day.task_status r' = Day.task_status r
          ∧ (∀ k, Day.habits r' !! k
                  = match Day.habits r !! k with
                    | Some v => Some v
                    | None => if decide (k ∈ habits s) then Some false else None
                    end)
      end
    ∧ (∀ h, h ∈ habits s' → is_Some (Day.habits r' !! h))
    ∧ habits s' = habits s
    ∧ task_templates s' = task_templates s.
Proof.
  intros Hi date s'. subst s'. unfold initializeWeek.
  destruct (initialize_week_data_lookup (get_week_start today) s date)
    as (Hh & Ht & Hd).
  rewrite decide_True in Hd.
  2:{ apply list_elem_of_fmap. exists i. split; [done|].
      apply elem_of_seqZ. lia. }
  exists (initialized_day s date). split; [done|]. split; [|split; [|done]].
  - unfold initialized_day, fresh_day.
    destruct (daily_data s !! date) as [r|]; simpl.
    + split; [done|]. split; [done|]. intros k. apply ensure_fold_lookup.
    + split; [done|]. split; intros k; apply dict_all_false_lookup.
  - intros h Hin. rewrite Hh in Hin. by apply initialized_day_habits.
Qed.

Lemma week_is_materialized_witness :
  ∃ r', daily_data (initializeWeek 739042 seed_store) !! "2024-06-09"%string
        = Some r'
        ∧ Day.tasks r' = ["A"; "B"; "C"]%string.
Proof.
  destruct (week_is_materialized 739042 seed_store 6) as (r' & Hr & Hnew & _).
  - lia.
  - exists r'. split; [exact Hr|]. exact (proj1 Hnew).
Defined.

(** X4: the week initialisation leaves the record of every date outside
    the week as it was. *)
Lemma other_dates_untouched today s date :
  date ∉ week_date (get_week_start today) <$> range7 →
  daily_data (initializeWeek today s) !! date = daily_data s !! date.
Proof.
  intros Hout.
  destruct (initialize_week_data_lookup (get_week_start today) s date)
    as (_ & _ & Hd).
  unfold initializeWeek. rewrite Hd. by rewrite decide_False.
Qed.

(** ** Toggles *)

Lemma update_habit_present habit date v s r :
  daily_data s !! date = Some r →
  update_habit habit date v s
  = (Ok tt,
     mkStore (<[date := Day.with_habits (λ h, <[habit := v]> h) r]> (daily_data s))
       (habits s) (task_templates s)).
Proof.
  intros Hr. unfold update_habit, day_at, set_day, mbind, get, put, mret.
  by rewrite Hr.
Qed.

(** C3 (counterexample): toggling a habit for a date without record raises
    KeyError; the call is not silent. *)
Lemma update_habit_raises_KeyError :
  daily_data empty_store !! "2024-06-03"%string = None
  ∧ update_habit "Sleep" "2024-06-03" true empty_store
    = (Raise (KeyError "2024-06-03"), empty_store).
Proof. split; reflexivity. Qed.

(** C3 (amended): for a date without record, update_habit (and update_task)
    raises KeyError for that date before anything is written, so the whole
    store is unchanged; Tk hands the exception to the handler installed by
    the application, which logs it. *)
Theorem toggle_missing_date habit date v s :
  daily_data s !! date = None →
  update_habit habit date v s = (Raise (KeyError date), s)
  ∧ update_task habit date v s = (Raise (KeyError date), s)
  ∧ tk_callback (update_habit habit date v) s = (s, [KeyError date])
  ∧ tk_callback (update_task habit date v) s = (s, [KeyError date]).
Proof.
  intros Hnone.
  assert (Hh : update_habit habit date v s = (Raise (KeyError date), s)).
  { unfold update_habit, day_at, mbind, get, lift. by rewrite Hnone. }
  assert (Ht : update_task habit date v s = (Raise (KeyError date), s)).
  { unfold update_task, day_at, mbind, get, lift. by rewrite Hnone. }
  unfold tk_callback. by rewrite Hh, Ht.
Qed.

Lemma toggle_missing_date_witness :
  tk_callback (update_habit "Sleep" "2024-06-10" true)
    (initializeWeek monday seed_store)
  = (initializeWeek monday seed_store, [KeyError "2024-06-10"]).
Proof.
  pose proof (toggle_missing_date "Sleep" "2024-06-10" true
                (initializeWeek monday seed_store)) as H.
  destruct H as (_ & _ & H & _); [vm_compute; reflexivity | exact H].
Defined.

(** ** Adding habits *)

Lemma add_habit_inline_global entry s :
  add_habit_inline entry s = add_habit_global entry s.
Proof.
  unfold add_habit_inline, add_habit_global. by destruct (truthy (strip entry)).
Qed.

Lemma add_habit_global_new x s :
  trimmed x → x ∉ habits s →
  add_habit_global x s
  = mkStore (Day.with_habits (λ h, <[x := false]> h) <$> daily_data s)
      (habits s ++ [x]) (task_templates s).
Proof.
  intros [Hstrip Hne] Hnew. unfold add_habit_global.
  rewrite Hstrip, truthy_true by done. simpl. by rewrite py_in_false.
Qed.

Lemma add_habit_global_known x s :
  trimmed x → x ∈ habits s → add_habit_global x s = s.
Proof.
  intros [Hstrip Hne] Hin. unfold add_habit_global.
  rewrite Hstrip, truthy_true by done. simpl. by rewrite py_in_true.
Qed.

(** C6: for a trimmed non-empty name x and a store whose habit names are
    unique, addHabit(x) followed by addHabit(x) leaves exactly one
    occurrence of x in the global habit list; the second call returns the
    store of the first unchanged (same list length, same day records). *)
Theorem add_habit_twice x s :
  trimmed x → NoDup (habits s) →
  let s1 := add_habit_global x s in
  let s2 := add_habit_global x s1 in
  s2 = s1
  ∧ occurrences x (habits s2) = 1%nat
  ∧ length (habits s2) = length (habits s1)
  ∧ daily_data s2 = daily_data s1.
Proof.
  intros Hx Hnd s1 s2.
  assert (Hin1 : x ∈ habits s1 ∧ NoDup (habits s1)).
  { subst s1. destruct (decide (x ∈ habits s)) as [Hin|Hnin].
    - by rewrite add_habit_global_known.
    - rewrite add_habit_global_new by done. simpl. split.
      + apply elem_of_app. right. by left.
      + apply NoDup_app. split; [done|]. split; [|apply NoDup_singleton].
        intros y Hy ->%list_elem_of_singleton. done. }
  destruct Hin1 as [Hin1 Hnd1].
  assert (Hs2 : s2 = s1) by (by apply add_habit_global_known).
  rewrite Hs2. split; [done|]. split; [|done].
  by apply occurrences_NoDup.
Qed.

Lemma add_habit_twice_witness :
  let s1 := add_habit_global "Gym" seed_store in
  let s2 := add_habit_global "Gym" s1 in
  s2 = s1
  ∧ occurrences "Gym" (habits s2) = 1%nat
  ∧ length (habits s2) = length (habits s1)
  ∧ daily_data s2 = daily_data s1.
Proof.
  apply (add_habit_twice "Gym" seed_store).
  - split; [reflexivity | discriminate].
  - apply (bool_decide_unpack (NoDup (habits seed_store))). vm_compute. exact I.
Defined.

(** Scenario 4 of the specification. *)
Example add_existing_habit :
  add_habit_global "Sleep" (initializeWeek monday seed_store)
  = initializeWeek monday seed_store.
Proof. vm_compute. reflexivity. Qed.

(** C10: for an input that is empty or made of whitespace only, both
    addHabit callbacks return the store they were given: the habit list,
    the task templates and every day record are unchanged, and nothing is
    raised. *)
Theorem add_habit_blank entry s :
  all_space entry = true →
  add_habit_global entry s = s ∧ add_habit_inline entry s = s.
Proof.
  intros Hblank. rewrite add_habit_inline_global. split.
  all: unfold add_habit_global; by rewrite strip_all_space.
Qed.

Lemma add_habit_blank_witness :
  add_habit_global "   " sleepy_week = sleepy_week
  ∧ add_habit_inline "   " sleepy_week = sleepy_week.
Proof. apply (add_habit_blank "   " sleepy_week). reflexivity. Defined.

(** ** Renaming habits *)

Lemma list_insert_at (l1 l2 : list string) x y :
  <[length l1 := y]> (l1 ++ x :: l2) = l1 ++ y :: l2.
Proof.
  replace (length l1) with (length l1 + 0)%nat by lia.
  by rewrite insert_app_r.
Qed.

Lemma py_index_Ok x (l : list string) i :
  py_index x l = Ok i → ∃ l1 l2, l = l1 ++ x :: l2 ∧ (x ∉ l1) ∧ length l1 = i.
Proof.
  revert i. induction l as [|y l IH]; intros i; cbn [py_index]; [done|].
  destruct (decide (y = x)) as [->|Hne].
  - intros [= <-]. exists [], l. split; [done|]. split; [apply not_elem_of_nil | done].
  - destruct (py_index x l) as [j|] eqn:Hj; [|done]. simpl. intros [= <-].
    destruct (IH j eq_refl) as (l1 & l2 & -> & Hl1 & Hlen).
    exists (y :: l1), l2. split; [done|]. split; [|by simpl; rewrite Hlen].
    apply not_elem_of_cons. split; [congruence | done].
Qed.

Lemma edit_habit_renames old new s l1 l2 :
  trimmed new → new ≠ old →
  habits s = l1 ++ old :: l2 → old ∉ l1 → new ∉ habits s →
  edit_habit old (Some new) s
  = (Ok tt,
     mkStore (rename_in_day old new <$> daily_data s) (l1 ++ new :: l2)
       (task_templates s)).
Proof.
  intros [Hstrip Hne] Hdiff Hl Hl1 Hnew.
  unfold edit_habit, try_except, mbind, get, put, lift, mret.
  rewrite Hstrip, truthy_true by done.
  rewrite bool_decide_eq_false_2 by done. simpl.
  rewrite py_in_false by done. rewrite Hl, py_index_middle by done.
  simpl. by rewrite list_insert_at.
Qed.

Lemma rename_in_day_back a b r :
  a ≠ b →
  let r2 := rename_in_day b a (rename_in_day a b r) in
  Day.tasks r2 = Day.tasks r
  ∧ Day.task_status r2 = Day.task_status r
  ∧ Day.habits r2 !! a = Some (dict_get (Day.habits r) a false)
  ∧ (∀ k, k ≠ a → k ≠ b → Day.habits r2 !! k = Day.habits r !! k).
Proof.
  intros Hab. unfold rename_in_day, Day.with_habits, dict_pop, dict_get. simpl.
  split; [done|]. split; [done|]. split.
  - by rewrite lookup_insert_eq, lookup_insert_eq.
  - intros k Hka Hkb.
    rewrite lookup_insert_ne, lookup_delete_ne by done.
    by rewrite lookup_insert_ne, lookup_delete_ne by done.
Qed.

(** Outside the invariant: a habit list holding [" Gym"], with a leading
    space, can only come from a data file written by hand, no callback
    stores such a name.  Renaming it to ["Yoga"] and back gives ["Gym"],
    because [edit_habit] strips the new name. *)
Lemma rename_untrimmed_back :
  let s1 := (edit_habit " Gym" (Some "Yoga"%string) untrimmed_store).2 in
  let s2 := (edit_habit "Yoga" (Some " Gym"%string) s1).2 in
  habits untrimmed_store = [" Gym"%string]
  ∧ habits s1 = ["Yoga"%string]
  ∧ habits s2 = ["Gym"%string]
  ∧ (Day.habits <$> daily_data untrimmed_store !! "2024-06-03"%string)
    = Some {[" Gym"%string := true]}
  ∧ (Day.habits <$> daily_data s2 !! "2024-06-03"%string)
    = Some {["Gym"%string := true]}.
Proof. vm_compute. repeat split; reflexivity. Qed.

(** C5: on a store as the program keeps it (habit names unique, trimmed
    and non-empty, see [habit_names_invariant]), for a
    name a of the global habit list and a trimmed non-empty name b outside
    the list and distinct from a, renameHabit(a, b) followed by
    renameHabit(b, a) restores the global habit list, and in every day
    record habits[a] is the flag it was before (false when the day had no
    entry for a); the flags of the other habits, the tasks and the
    task_status of each day are unchanged. *)
Theorem rename_habit_round_trip s a b :
  trimmed a → trimmed b → a ≠ b →
  a ∈ habits s → b ∉ habits s → NoDup (habits s) →
  ∃ s1 s2,
    edit_habit a (Some b) s = (Ok tt, s1)
    ∧ edit_habit b (Some a) s1 = (Ok tt, s2)
    ∧ habits s2 = habits s
    ∧ task_templates s2 = task_templates s
    ∧ ∀ date r, daily_data s !! date = Some r →
        ∃ r2, daily_data s2 !! date = Some r2
          ∧ Day.habits r2 !! a = Some (dict_get (Day.habits r) a false)
          ∧ (∀ k, k ≠ a → k ≠ b → Day.habits r2 !! k = Day.habits r !! k)
          ∧ Day.tasks r2 = Day.tasks r
          ∧ Day.task_status r2 = Day.task_status r.
Proof.
  intros Ha Hb Hab Hin Hnew Hnd.
  destruct (first_occurrence a (habits s) Hin) as (l1 & l2 & Hl & Hl1).
  assert (Hparts : (a ∉ l2) ∧ (b ∉ l1) ∧ (b ∉ l2)).
  { rewrite Hl in Hnd, Hnew.
    apply NoDup_app in Hnd as (_ & _ & Hnd). apply NoDup_cons in Hnd as [Hl2 _].
    split; [done|]. split; intros Hb'; apply Hnew.
    - apply elem_of_app. by left.
    - apply elem_of_app. right. by right. }
  destruct Hparts as (Hl2 & Hbl1 & Hbl2).
  eexists _, _. split; [by apply (edit_habit_renames a b s l1 l2)|].
  split.
  - apply (edit_habit_renames b a _ l1 l2); [done | congruence | done | done |].
    simpl. intros [?|[?|?]%elem_of_cons]%elem_of_app; [done | congruence | done].
  - simpl. split; [done|]. split; [done|]. intros date r Hr.
    rewrite !lookup_fmap, Hr. simpl. eexists. split; [done|].
    destruct (rename_in_day_back a b r Hab) as (Ht & Hs & Hv & Hk).
    done.
Qed.

Lemma rename_habit_round_trip_witness :
  ∃ s1 s2,
    edit_habit "Sleep" (Some "Nap"%string) sleepy_week = (Ok tt, s1)
    ∧ edit_habit "Nap" (Some "Sleep"%string) s1 = (Ok tt, s2)
    ∧ habits s2 = habits sleepy_week.
Proof.
  destruct (rename_habit_round_trip sleepy_week "Sleep" "Nap")
    as (s1 & s2 & H1 & H2 & H3 & _).
  - split; [reflexivity | discriminate].
  - split; [reflexivity | discriminate].
  - discriminate.
  - apply (bool_decide_unpack ("Sleep"%string ∈ habits sleepy_week)).
    vm_compute. exact I.
  - apply (bool_decide_unpack ("Nap"%string ∉ habits sleepy_week)).
    vm_compute. exact I.
  - apply (bool_decide_unpack (NoDup (habits sleepy_week))). vm_compute. exact I.
  - exists s1, s2. split; [exact H1|]. split; [exact H2 | exact H3].
Defined.

(** ** Deleting habits *)

Lemma delete_habit_absent name confirm s :
  name ∉ habits s → delete_habit name confirm s = (Ok tt, s).
Proof.
  intros Hout. unfold delete_habit, mbind, get, mret.
  by rewrite py_in_false.
Qed.

Lemma delete_habit_declined name s : delete_habit name false s = (Ok tt, s).
Proof.
  unfold delete_habit, mbind, get, mret. by destruct (py_in name (habits s)).
Qed.

Lemma delete_habit_present name s l1 l2 :
  habits s = l1 ++ name :: l2 → name ∉ l1 →
  delete_habit name true s
  = (Ok tt,
     mkStore (Day.with_habits (λ h, delete name h) <$> daily_data s)
       (l1 ++ l2) (task_templates s)).
Proof.
  intros Hl Hl1. unfold delete_habit, mbind, get, put, lift, mret.
  rewrite py_in_true.
  2:{ rewrite Hl. apply elem_of_app. right. by left. }
  rewrite Hl, py_remove_middle by done. reflexivity.
Qed.

(** C8 (counterexample): ["Read"] is a key of Monday's habits map but not an
    entry of the global habit list; deleting it changes nothing, the key
    stays in the day record. *)
Lemma delete_orphan_habit_keeps_key :
  habits orphan_store = ["Sleep"%string]
  ∧ (Day.habits <$> daily_data orphan_store !! "2024-06-03"%string)
    = Some (<["Read"%string := true]> {["Sleep"%string := false]})
  ∧ delete_habit "Read" true orphan_store = (Ok tt, orphan_store).
Proof. vm_compute. repeat split; reflexivity. Qed.

(** C8 (amended): for a name of the global habit list, deleteHabit(name),
    once confirmed, removes the first occurrence of name from the list (the
    only one when names are unique), the other habits keeping their order,
    and removes the key name from the habits map of every day record (a
    record without the key is left as it is); the flags of the other habits,
    the tasks list and task_status map of every record, the set of dates and
    the task templates are unchanged. *)
Theorem delete_habit_effect s name :
  name ∈ habits s →
  ∃ l1 l2 s',
    habits s = l1 ++ name :: l2
    ∧ (name ∉ l1)
    ∧ delete_habit name true s = (Ok tt, s')
    ∧ habits s' = l1 ++ l2
    ∧ (NoDup (habits s) → name ∉ habits s')
    ∧ task_templates s' = task_templates s
    ∧ (∀ date, daily_data s !! date = None → daily_data s' !! date = None)
    ∧ ∀ date r, daily_data s !! date = Some r →
        ∃ r', daily_data s' !! date = Some r'
          ∧ Day.habits r' !! name = None
          ∧ (∀ k, k ≠ name → Day.habits r' !! k = Day.habits r !! k)
          ∧ Day.tasks r' = Day.tasks r
          ∧ Day.task_status r' = Day.task_status r.
Proof.
  intros Hin.
  destruct (first_occurrence name (habits s) Hin) as (l1 & l2 & Hl & Hl1).
  exists l1, l2. eexists. split; [done|]. split; [done|].
  split; [by apply delete_habit_present|]. simpl.
  split; [done|]. split; [|split; [done|split]].
  - rewrite Hl. intros Hnd.
    apply NoDup_app in Hnd as (_ & _ & Hnd). apply NoDup_cons in Hnd as [Hl2 _].
    intros [?|?]%elem_of_app; done.
  - intros date Hnone. by rewrite lookup_fmap, Hnone.
  - intros date r Hr. rewrite lookup_fmap, Hr. simpl. eexists. split; [done|].
    simpl. split; [apply lookup_delete_eq|].
    split; [|done]. intros k Hk. by apply lookup_delete_ne.
Qed.

Lemma delete_habit_effect_witness :
  ∃ l1 l2 s',
    habits sleepy_week = l1 ++ "Read"%string :: l2
    ∧ delete_habit "Read" true sleepy_week = (Ok tt, s')
    ∧ habits s' = l1 ++ l2.
Proof.
  destruct (delete_habit_effect sleepy_week "Read")
    as (l1 & l2 & s' & Hl & _ & Hdel & Hs' & _).
  - apply (bool_decide_unpack ("Read"%string ∈ habits sleepy_week)).
    vm_compute. exact I.
  - exists l1, l2, s'. split; [exact Hl|]. split; [exact Hdel | exact Hs'].
Defined.

(** Scenario 5 of the specification. *)
Example delete_read :
  let s' := (delete_habit "Read" true sleepy_week).2 in
  habits s' = ["Sleep"%string]
  ∧ (Day.habits <$> daily_data s' !! "2024-06-03"%string)
    = Some {["Sleep"%string := true]}.
Proof. vm_compute. split; reflexivity. Qed.

(** ** Unique habit names

    The data model asks for habit names that are unique in the tracker; the
    fallback list has the property and every operation on habits keeps
    it. *)

Lemma default_habits_NoDup : NoDup default_habits.
Proof. apply (bool_decide_unpack (NoDup default_habits)). vm_compute. exact I. Qed.

Lemma add_habit_global_NoDup entry s :
  NoDup (habits s) → NoDup (habits (add_habit_global entry s)).
Proof.
  intros Hnd. unfold add_habit_global.
  destruct (truthy (strip entry)); simpl; [|done].
  unfold py_in. case_bool_decide as Hin; [done|]. simpl.
  apply NoDup_app. split; [done|]. split; [|apply NoDup_singleton].
  intros y Hy ->%list_elem_of_singleton. done.
Qed.

Lemma edit_habit_NoDup old_habit dialog s :
  NoDup (habits s) → NoDup (habits (edit_habit old_habit dialog s).2).
Proof.
  intros Hnd. unfold edit_habit, try_except, mbind, get, put, lift, mret.
  destruct dialog as [new_habit|]; [|done].
  destruct (truthy new_habit && truthy (strip new_habit)
            && negb (bool_decide (new_habit = old_habit))); [|done].
  unfold py_in. case_bool_decide as Hin; [done|].
  destruct (py_index old_habit (habits s)) as [idx|] eqn:Hidx; [|done].
  simpl. destruct (py_index_Ok _ _ _ Hidx) as (l1 & l2 & Hl & Hl1 & <-).
  rewrite Hl in *. rewrite list_insert_at.
  apply NoDup_app in Hnd as (Hnd1 & Hsep & Hnd2).
  apply NoDup_cons in Hnd2 as [Hold Hnd2].
  apply NoDup_app. split; [done|]. split.
  - intros y Hy [->|Hy2]%elem_of_cons.
    + apply Hin. apply elem_of_app. by left.
    + apply (Hsep y Hy). by right.
  - apply NoDup_cons. split; [|done].
    intros Hn. apply Hin. apply elem_of_app. right. by right.
Qed.

Lemma delete_habit_NoDup habit confirm s :
  NoDup (habits s) → NoDup (habits (delete_habit habit confirm s).2).
Proof.
  intros Hnd. destruct (decide (habit ∈ habits s)) as [Hin|Hout].
  - destruct confirm; [|by rewrite delete_habit_declined].
    destruct (first_occurrence habit (habits s) Hin) as (l1 & l2 & Hl & Hl1).
    rewrite (delete_habit_present habit s l1 l2 Hl Hl1). simpl.
    rewrite Hl in Hnd. apply NoDup_app in Hnd as (Hnd1 & Hsep & Hnd2).
    apply NoDup_cons in Hnd2 as [_ Hnd2].
    apply NoDup_app. split; [done|]. split; [|done].
    intros y Hy Hy2. apply (Hsep y Hy). by right.
  - by rewrite delete_habit_absent.
Qed.

(** ** Task templates *)

Lemma add_task_template_new name s :
  trimmed name → name ∉ task_templates s →
  add_task_template name s
  = mkStore
      ((λ r, Day.mk (Day.tasks r ++ [name])
               (<[name := false]> (Day.task_status r)) (Day.habits r))
         <$> daily_data s)
      (habits s) (task_templates s ++ [name]).
Proof.
  intros [Hstrip Hne] Hnew. unfold add_task_template.
  rewrite Hstrip, truthy_true by done. simpl. by rewrite py_in_false.
Qed.

(** C9: addTaskTemplate(name), for a trimmed non-empty name absent from
    the task templates, appends name to the tasks list of every day without
    looking at that list; on a day whose list already holds name once (a
    day-specific task) the list then holds name twice, and the day's
    totalTaskCount, the denominator of its percentage, grows by one. *)
Theorem add_task_template_duplicates s name date r :
  trimmed name → name ∉ task_templates s →
  daily_data s !! date = Some r →
  occurrences name (Day.tasks r) = 1%nat →
  ∃ r', daily_data (add_task_template name s) !! date = Some r'
    ∧ Day.tasks r' = Day.tasks r ++ [name]
    ∧ occurrences name (Day.tasks r') = 2%nat
    ∧ totalTaskCount r' = totalTaskCount r + 1
    ∧ day_percent r' = percent_of (completedTaskCount r') (totalTaskCount r + 1)
    ∧ task_templates (add_task_template name s) = task_templates s ++ [name].
Proof.
  intros Hname Hnew Hr Hone.
  rewrite add_task_template_new by done. simpl.
  rewrite lookup_fmap, Hr. simpl. eexists. split; [done|]. simpl.
  split; [done|].
  assert (Htotal : totalTaskCount
                     (Day.mk (Day.tasks r ++ [name])
                        (<[name := false]> (Day.task_status r)) (Day.habits r))
                   = totalTaskCount r + 1).
  { unfold totalTaskCount. simpl. rewrite length_app. simpl. lia. }
  split; [|split; [done|split; [|done]]].
  - rewrite occurrences_app, Hone.
    change [name] with (name :: []). by rewrite occurrences_cons_eq.
  - rewrite day_percent_unfold, Htotal.
    destruct (Z.eqb_spec (totalTaskCount r + 1) 0) as [H0|_]; [|done].
    unfold totalTaskCount in H0. lia.
Qed.

Lemma add_task_template_duplicates_witness :
  ∃ r', daily_data (add_task_template "Call home" daytask_week)
          !! "2024-06-04"%string = Some r'
        ∧ Day.tasks r' = ["A"; "B"; "C"; "Call home"; "Call home"]%string.
Proof.
  destruct (add_task_template_duplicates daytask_week "Call home" "2024-06-04"
              (Day.mk ["A"; "B"; "C"; "Call home"]%string
                 (<["Call home"%string := false]>
                    (dict_all_false ["A"; "B"; "C"]%string))
                 (dict_all_false ["Sleep"; "Read"]%string)))
    as (r' & Hr' & Htasks & _).
  - split; [reflexivity | discriminate].
  - apply (bool_decide_unpack
             ("Call home"%string ∉ task_templates daytask_week)).
    vm_compute. exact I.
  - vm_compute. reflexivity.
  - vm_compute. reflexivity.
  - exists r'. split; [exact Hr' | exact Htasks].
Defined.

(** ** Further properties of the week *)

Lemma store_eq (s1 s2 : Store) :
  daily_data s1 = daily_data s2 → habits s1 = habits s2 →
  task_templates s1 = task_templates s2 → s1 = s2.
Proof. destruct s1, s2. simpl. by intros -> -> ->. Qed.


Lemma reconcile_covered s date r :
  habits_covered s → daily_data s !! date = Some r →
  initialized_day s date = r.
Proof.
  intros Hcov Hr. unfold initialized_day. rewrite Hr.
  destruct r as [ts st hb]. unfold Day.with_habits. simpl. f_equal.
  apply ensure_fold_complete. intros k Hk. apply (Hcov date _ k Hr Hk).
Qed.

(** X1: every day of a week has the same week start, which is the Monday
    on or before it. *)
Theorem week_start_stable d i :
  0 ≤ i < 7 →
  get_week_start (get_week_start d + i) = get_week_start d
  ∧ weekday (get_week_start d) = 0
  ∧ get_week_start d ≤ d < get_week_start d + 7.
Proof.
  intros Hi. destruct (week_start_is_monday d) as [Hmon Hle].
  split; [|done]. unfold get_week_start at 1. unfold timedelta.
  unfold weekday in *.
  assert (Hmod : (get_week_start d + i + 6) mod 7 = i).
  { replace (get_week_start d + i + 6) with (i + (get_week_start d + 6)) by lia.
    rewrite <- Z.add_mod_idemp_r by lia. rewrite Hmon, Z.add_0_r.
    apply Z.mod_small. lia. }
  rewrite Hmod. lia.
Qed.

Lemma week_start_stable_witness :
  get_week_start (get_week_start 739042 + 6) = get_week_start 739042.
Proof. apply (week_start_stable 739042 6). lia. Defined.


(** X3: on a store whose week is already materialised and whose day records
    have a flag for every global habit, the week initialisation is the
    identity. *)
Theorem initialize_week_data_identity week_start s :
  habits_covered s →
  (∀ i, 0 ≤ i < 7 → is_Some (daily_data s !! week_date week_start i)) →
  initialize_week_data week_start s = s.
Proof.
  intros Hcov Hweek.
  destruct (initialize_week_data_lookup week_start s EmptyString) as (Hh & Ht & _).
  apply store_eq; [|done|done].
  apply map_eq. intros date.
  destruct (initialize_week_data_lookup week_start s date) as (_ & _ & ->).
  case_decide as Hin; [|done].
  apply list_elem_of_fmap in Hin as (i & -> & Hi%elem_of_seqZ).
  destruct (Hweek i ltac:(lia)) as [r Hr].
  rewrite Hr. f_equal. by apply reconcile_covered.
Qed.

Lemma initialize_week_data_identity_witness :
  initialize_week_data monday sleepy_week = sleepy_week.
Proof.
  apply (initialize_week_data_identity monday sleepy_week).
  - intros date r h Hr Hh.
    assert (Hall : map_Forall
                     (λ _ r, Forall (λ h, is_Some (Day.habits r !! h))
                               (habits sleepy_week))
                     (daily_data sleepy_week)).
    { apply (bool_decide_unpack _). vm_compute. exact I. }
    specialize (Hall date r Hr). rewrite Forall_forall in Hall. by apply Hall.
  - intros i Hi.
    assert (Hcases : i = 0 ∨ i = 1 ∨ i = 2 ∨ i = 3 ∨ i = 4 ∨ i = 5 ∨ i = 6) by lia.
    destruct Hcases as [->|[->|[->|[->|[->|[->| ->]]]]]];
      apply (bool_decide_unpack _); vm_compute; exact I.
Defined.


(** X5: first run: without stored data every day of the current week gets the
    five default tasks and the seven default habits, nothing ticked, and
    every percentage is 0. *)
Theorem startup_first_run now i :
  0 ≤ i < 7 →
  let s := startup (mkStored None None None) now in
  let date := week_date (get_week_start now) i in
  daily_data s !! date
  = Some (Day.mk default_task_templates (dict_all_false default_task_templates)
            (dict_all_false default_habits))
  ∧ donut_percent s date = Some (Ok 0)
  ∧ (∀ h, habit_flag s h date = false)
  ∧ habits s = default_habits
  ∧ task_templates s = default_task_templates.
Proof.
  intros Hi s date. subst s. unfold startup.
  cbn [stored_daily_data stored_habits stored_task_templates default].
  set (s0 := mkStore ∅ default_habits default_task_templates).
  destruct (initialize_week_data_lookup (get_week_start now) s0 date)
    as (Hh & Ht & Hd).
  rewrite decide_True in Hd.
  2:{ apply list_elem_of_fmap. exists i. split; [done|]. apply elem_of_seqZ. lia. }
  assert (Hday : initialized_day s0 date
                 = Day.mk default_task_templates
                     (dict_all_false default_task_templates)
                     (dict_all_false default_habits)).
  { unfold initialized_day. subst s0. simpl. by rewrite lookup_empty. }
  rewrite Hday in Hd. split; [done|]. split.
  - assert (Hp : day_percent
                   (Day.mk default_task_templates
                      (dict_all_false default_task_templates)
                      (dict_all_false default_habits)) = Ok 0).
    { vm_compute. reflexivity. }
    unfold donut_percent. rewrite Hd. cbn [fmap option_fmap option_map].
    by rewrite Hp.
  - split; [|done]. intros h. unfold habit_flag. rewrite Hd. simpl.
    apply bool_decide_eq_false. rewrite dict_all_false_lookup.
    by case_decide.
Qed.

Lemma startup_first_run_witness :
  donut_percent (startup (mkStored None None None) 739042) "2024-06-09"
  = Some (Ok 0).
Proof.
  destruct (startup_first_run 739042 6) as (_ & H & _); [lia | exact H].
Defined.

Lemma other_dates_untouched_witness :
  daily_data (initializeWeek 739042 sleepy_week) !! "2024-06-10"%string
  = daily_data sleepy_week !! "2024-06-10"%string.
Proof.
  apply (other_dates_untouched 739042 sleepy_week "2024-06-10").
  apply (bool_decide_unpack _). vm_compute. exact I.
Defined.

(** ** Further properties of the toggles and the counts *)

Lemma update_task_present task date v s r :
  daily_data s !! date = Some r →
  update_task task date v s
  = (Ok tt,
     mkStore (<[date := Day.mk (Day.tasks r) (<[task := v]> (Day.task_status r))
                          (Day.habits r)]> (daily_data s))
       (habits s) (task_templates s)).
Proof.
  intros Hr. unfold update_task, day_at, set_day, mbind, get, put, mret.
  by rewrite Hr.
Qed.

(** X6: ticking a habit and setting it back to the flag it had restores the
    whole store. *)
Theorem update_habit_toggle_back habit date v0 v1 s r :
  daily_data s !! date = Some r → Day.habits r !! habit = Some v0 →
  update_habit habit date v0 (update_habit habit date v1 s).2 = (Ok tt, s).
Proof.
  intros Hr Hv. rewrite (update_habit_present habit date v1 s r Hr). simpl.
  erewrite update_habit_present by (simpl; apply lookup_insert_eq).
  f_equal. apply store_eq; simpl; [|done|done].
  rewrite insert_insert_eq. apply insert_id. rewrite Hr. f_equal.
  destruct r as [ts st hb]. unfold Day.with_habits. simpl in *. f_equal.
  rewrite insert_insert_eq. symmetry. by apply insert_id.
Qed.

Lemma update_habit_toggle_back_witness :
  update_habit "Sleep" "2024-06-03" true
    (update_habit "Sleep" "2024-06-03" false sleepy_week).2
  = (Ok tt, sleepy_week).
Proof.
  apply (update_habit_toggle_back "Sleep" "2024-06-03" true false sleepy_week
           (Day.mk ["A"; "B"; "C"]%string (dict_all_false ["A"; "B"; "C"]%string)
              (<["Sleep"%string := true]> (dict_all_false ["Sleep"; "Read"]%string)))).
  - vm_compute. reflexivity.
  - vm_compute. reflexivity.
Defined.

(** X7: ticking a task and setting it back to the status it had restores the
    whole store; the tasks list is never touched. *)
Theorem update_task_toggle_back task date v0 v1 s r :
  daily_data s !! date = Some r → Day.task_status r !! task = Some v0 →
  update_task task date v0 (update_task task date v1 s).2 = (Ok tt, s).
Proof.
  intros Hr Hv. rewrite (update_task_present task date v1 s r Hr). simpl.
  erewrite update_task_present by (simpl; apply lookup_insert_eq).
  f_equal. apply store_eq; simpl; [|done|done].
  rewrite insert_insert_eq. apply insert_id. rewrite Hr. f_equal.
  destruct r as [ts st hb]. simpl in *. f_equal.
  rewrite insert_insert_eq. symmetry. by apply insert_id.
Qed.

Lemma update_task_toggle_back_witness :
  update_task "A" "2024-06-03" false
    (update_task "A" "2024-06-03" true sleepy_week).2
  = (Ok tt, sleepy_week).
Proof.
  apply (update_task_toggle_back "A" "2024-06-03" false true sleepy_week
           (Day.mk ["A"; "B"; "C"]%string (dict_all_false ["A"; "B"; "C"]%string)
              (<["Sleep"%string := true]> (dict_all_false ["Sleep"; "Read"]%string)))).
  - vm_compute. reflexivity.
  - vm_compute. reflexivity.
Defined.

Lemma sum_ones_app {A} (p : A → bool) (l1 l2 : list A) :
  sum_ones p (l1 ++ l2) = sum_ones p l1 + sum_ones p l2.
Proof. induction l1 as [|x l1 IH]; simpl; [done|]. rewrite IH. lia. Qed.

Lemma sum_ones_insert (m : gmap string bool) (k : string) (v : bool)
  (l : list string) :
  sum_ones (λ t, dict_get (<[k := v]> m) t false) l
  = sum_ones (λ t, dict_get m t false) l
    + Z.of_nat (occurrences k l)
      * ((if v then 1 else 0) - (if dict_get m k false then 1 else 0)).
Proof.
  induction l as [|t l IH]; [done|]. cbn [sum_ones]. rewrite IH. clear IH.
  set (rest := sum_ones (λ t, dict_get m t false) l).
  destruct (decide (t = k)) as [->|Hne].
  - rewrite occurrences_cons_eq.
    assert (dict_get (<[k := v]> m) k false = v) as ->.
    { unfold dict_get. by rewrite lookup_insert_eq. }
    destruct v, (dict_get m k false); lia.
  - assert (dict_get (<[k := v]> m) t false = dict_get m t false) as ->.
    { unfold dict_get. by rewrite lookup_insert_ne. }
    assert (occurrences k (t :: l) = occurrences k l) as ->.
    { unfold occurrences. by rewrite filter_cons_False. }
    lia.
Qed.

(** X8: setting the status of a task changes the day's done count by one per
    entry of that name in the tasks list, and only when the status really
    changes; a name outside the list leaves the day's percentage alone. *)
Theorem update_task_count task date v s r :
  daily_data s !! date = Some r →
  ∃ r', daily_data (update_task task date v s).2 !! date = Some r'
    ∧ Day.tasks r' = Day.tasks r
    ∧ completedTaskCount r'
      = completedTaskCount r
        + Z.of_nat (occurrences task (Day.tasks r))
          * ((if v then 1 else 0)
             - (if dict_get (Day.task_status r) task false then 1 else 0))
    ∧ (task ∉ Day.tasks r → day_percent r' = day_percent r).
Proof.
  intros Hr. rewrite (update_task_present task date v s r Hr). simpl.
  rewrite lookup_insert_eq. eexists. split; [done|]. simpl. split; [done|].
  assert (Hcount : completedTaskCount
                     (Day.mk (Day.tasks r) (<[task := v]> (Day.task_status r))
                        (Day.habits r))
                   = completedTaskCount r
                     + Z.of_nat (occurrences task (Day.tasks r))
                       * ((if v then 1 else 0)
                          - (if dict_get (Day.task_status r) task false
                             then 1 else 0))).
  { rewrite <- !completed_of_count. unfold completed_of. simpl.
    apply sum_ones_insert. }
  split; [done|]. intros Hout.
  rewrite !day_percent_unfold, Hcount. unfold totalTaskCount. simpl.
  rewrite occurrences_absent by done. do 2 f_equal. lia.
Qed.

Lemma update_task_count_witness :
  ∃ r', daily_data (update_task "A" "2024-06-03" true sleepy_week).2
          !! "2024-06-03"%string = Some r'
        ∧ completedTaskCount r' = 1.
Proof.
  destruct (update_task_count "A" "2024-06-03" true sleepy_week
              (Day.mk ["A"; "B"; "C"]%string
                 (dict_all_false ["A"; "B"; "C"]%string)
                 (<["Sleep"%string := true]>
                    (dict_all_false ["Sleep"; "Read"]%string))))
    as (r' & Hr' & _ & Hc & _).
  - vm_compute. reflexivity.
  - exists r'. split; [exact Hr'|]. rewrite Hc. vm_compute. reflexivity.
Defined.

(** X9: the label under a day shows the number of list entries whose status is
    true over the length of the list; the first never exceeds the second. *)
Theorem daily_stats_bounds r :
  daily_stats r = (completedTaskCount r, totalTaskCount r)
  ∧ 0 ≤ completedTaskCount r ≤ totalTaskCount r.
Proof.
  split; [|apply completed_le_total].
  unfold daily_stats, totalTaskCount, len. rewrite completed_of_count.
  by destruct (Day.tasks r).
Qed.

(** X10: for a day of 1 to 49 tasks the percentage lies between 0 and 100; it is
    100 exactly when every entry of the list is done and 0 exactly when none
    is. *)
Theorem day_percent_extremes r :
  0 < totalTaskCount r < 50 →
  ∃ p, day_percent r = Ok p
    ∧ 0 ≤ p ≤ 100
    ∧ (p = 100 ↔ completedTaskCount r = totalTaskCount r)
    ∧ (p = 0 ↔ completedTaskCount r = 0).
Proof.
  intros Ht. pose proof (completed_le_total r) as Hc.
  rewrite day_percent_unfold.
  destruct (Z.eqb_spec (totalTaskCount r) 0) as [?|_]; [lia|].
  rewrite percent_of_exact by lia. eexists. split; [done|].
  set (c := completedTaskCount r) in *. set (t := totalTaskCount r) in *.
  assert (H100 : 100 * c / t ≤ 100).
  { apply Z.div_le_upper_bound; nia. }
  assert (H0 : 0 ≤ 100 * c / t) by (apply Z.div_pos; lia).
  split; [lia|]. split; split.
  - intros Hp. assert (100 * t ≤ 100 * c); [|lia].
    pose proof (Z.mul_div_le (100 * c) t ltac:(lia)). nia.
  - intros Heq. rewrite Heq. apply Z.div_mul. lia.
  - intros Hp. destruct (decide (c = 0)) as [|Hne]; [done|]. exfalso.
    assert (1 ≤ 100 * c / t); [|lia].
    apply Z.div_le_lower_bound; lia.
  - intros ->. by rewrite Z.mul_0_r.
Qed.

Lemma day_percent_extremes_witness :
  ∃ p, day_percent (fresh_day seed_store) = Ok p ∧ 0 ≤ p ≤ 100.
Proof.
  destruct (day_percent_extremes (fresh_day seed_store)) as (p & Hp & Hb & _).
  - vm_compute. split; reflexivity.
  - exists p. split; [exact Hp | exact Hb].
Defined.


(** ** Further properties of the task callbacks *)

Lemma lstrip_nonblank s :
  all_space s = false →
  ∃ c rest, lstrip s = String c rest ∧ isspace c = false.
Proof.
  induction s as [|c s IH]; simpl; [done|].
  destruct (isspace c) eqn:Hc; simpl; [done|].
  intros _. by exists c, s.
Qed.

Lemma strip_nonblank s : all_space s = false → strip s ≠ EmptyString.
Proof.
  intros Hs. destruct (lstrip_nonblank s Hs) as (c & rest & Hl & Hc).
  unfold strip. rewrite Hl. simpl. rewrite Hc. by destruct (rstrip rest).
Qed.

Lemma nonblank_truthy s :
  all_space s = false → truthy s = true ∧ truthy (strip s) = true.
Proof.
  intros Hs. split.
  - by destruct s.
  - apply truthy_true. by apply strip_nonblank.
Qed.

Lemma add_task_to_day_present date t s r :
  all_space t = false → daily_data s !! date = Some r →
  add_task_to_day date (Some t) s
  = if py_in (strip t) (Day.tasks r) then (Ok tt, s)
    else (Ok tt,
          mkStore
            (<[date := Day.mk (Day.tasks r ++ [strip t])
                         (<[strip t := false]> (Day.task_status r))
                         (Day.habits r)]> (daily_data s))
            (habits s) (task_templates s)).
Proof.
  intros Ht Hr. destruct (nonblank_truthy t Ht) as [H1 H2].
  unfold add_task_to_day. rewrite H1, H2. simpl.
  unfold day_at, set_day, mbind, get, put, mret. rewrite Hr.
  by destruct (py_in (strip t) (Day.tasks r)).
Qed.

Lemma add_task_to_day_blank date s :
  add_task_to_day date None s = (Ok tt, s)
  ∧ ∀ t, all_space t = true → add_task_to_day date (Some t) s = (Ok tt, s).
Proof.
  split; [done|]. intros t Ht. unfold add_task_to_day.
  rewrite strip_all_space by done. simpl. by rewrite andb_false_r.
Qed.

Lemma add_task_to_day_missing_date date t s :
  all_space t = false → daily_data s !! date = None →
  add_task_to_day date (Some t) s = (Raise (KeyError date), s)
  ∧ tk_callback (add_task_to_day date (Some t)) s = (s, [KeyError date]).
Proof.
  intros Ht Hnone. destruct (nonblank_truthy t Ht) as [H1 H2].
  assert (Hadd : add_task_to_day date (Some t) s = (Raise (KeyError date), s)).
  { unfold add_task_to_day. rewrite H1, H2. simpl.
    unfold day_at, mbind, get, lift. by rewrite Hnone. }
  split; [done|]. unfold tk_callback. by rewrite Hadd.
Qed.

(** X13: add_task_to_day leaves the store alone when the dialog is
    cancelled, when the name is blank (even for a date without record) and
    when the trimmed name is already in that day's list; a name for a date
    without record raises KeyError, which Tk logs, and changes nothing. *)
Theorem add_task_to_day_edge_cases date s :
  add_task_to_day date None s = (Ok tt, s)
  ∧ (∀ t, all_space t = true → add_task_to_day date (Some t) s = (Ok tt, s))
  ∧ (∀ t, all_space t = false → daily_data s !! date = None →
          add_task_to_day date (Some t) s = (Raise (KeyError date), s)
          ∧ tk_callback (add_task_to_day date (Some t)) s
            = (s, [KeyError date]))
  ∧ (∀ t r, all_space t = false → daily_data s !! date = Some r →
            strip t ∈ Day.tasks r →
            add_task_to_day date (Some t) s = (Ok tt, s)).
Proof.
  destruct (add_task_to_day_blank date s) as [Hnone Hblank].
  split; [done|]. split; [done|]. split.
  - intros t Ht Hd. by apply add_task_to_day_missing_date.
  - intros t r Ht Hr Hin. rewrite (add_task_to_day_present date t s r Ht Hr).
    by rewrite py_in_true.
Qed.

(** X14: a new name is appended to that day only, unticked: the day's total
    grows by one, its done count stays, a list without duplicates stays
    without duplicates, and the other dates and the two global lists are
    untouched. *)
Theorem add_task_to_day_effect date t s r :
  all_space t = false → daily_data s !! date = Some r →
  strip t ∉ Day.tasks r →
  ∃ s' r',
    add_task_to_day date (Some t) s = (Ok tt, s')
    ∧ daily_data s' !! date = Some r'
    ∧ Day.tasks r' = Day.tasks r ++ [strip t]
    ∧ Day.task_status r' !! strip t = Some false
    ∧ Day.habits r' = Day.habits r
    ∧ totalTaskCount r' = totalTaskCount r + 1
    ∧ completedTaskCount r' = completedTaskCount r
    ∧ (NoDup (Day.tasks r) → NoDup (Day.tasks r'))
    ∧ (∀ d, d ≠ date → daily_data s' !! d = daily_data s !! d)
    ∧ habits s' = habits s
    ∧ task_templates s' = task_templates s.
Proof.
  intros Ht Hr Hnew. rewrite (add_task_to_day_present date t s r Ht Hr).
  rewrite py_in_false by done. eexists _, _. split; [done|]. simpl.
  rewrite lookup_insert_eq. split; [done|]. simpl.
  split; [done|]. split; [apply lookup_insert_eq|]. split; [done|].
  split; [|split; [|split; [|split; [|done]]]].
  - unfold totalTaskCount. simpl. rewrite length_app. simpl. lia.
  - rewrite <- !completed_of_count. unfold completed_of. simpl.
    rewrite sum_ones_app, sum_ones_insert. cbn [sum_ones].
    rewrite occurrences_absent by done.
    unfold dict_get. rewrite lookup_insert_eq. simpl. lia.
  - intros Hnd. apply NoDup_app. split; [done|]. split; [|apply NoDup_singleton].
    intros y Hy ->%list_elem_of_singleton. done.
  - intros d Hd. by rewrite lookup_insert_ne.
Qed.

Lemma add_task_to_day_effect_witness :
  ∃ s' r',
    add_task_to_day "2024-06-04" (Some " Call home "%string) sleepy_week
    = (Ok tt, s')
    ∧ daily_data s' !! "2024-06-04"%string = Some r'
    ∧ Day.tasks r' = ["A"; "B"; "C"; "Call home"]%string.
Proof.
  destruct (add_task_to_day_effect "2024-06-04" " Call home " sleepy_week
              (Day.mk ["A"; "B"; "C"]%string
                 (dict_all_false ["A"; "B"; "C"]%string)
                 (dict_all_false ["Sleep"; "Read"]%string)))
    as (s' & r' & Hs & Hr & Ht & _).
  - reflexivity.
  - vm_compute. reflexivity.
  - apply (bool_decide_unpack _). vm_compute. exact I.
  - exists s', r'. split; [exact Hs|]. split; [exact Hr | exact Ht].
Defined.

Lemma add_task_template_known entry s :
  py_in (strip entry) (task_templates s) = true → add_task_template entry s = s.
Proof.
  intros Hin. unfold add_task_template. rewrite Hin.
  by destruct (truthy (strip entry)).
Qed.

(** X15: adding the same name twice is the same as adding it once, whatever the
    input and the store: this holds for habits, for task templates and for
    the tasks of a day. *)
Theorem add_twice_is_add_once entry date dialog s :
  add_habit_global entry (add_habit_global entry s) = add_habit_global entry s
  ∧ add_task_template entry (add_task_template entry s)
    = add_task_template entry s
  ∧ add_task_to_day date dialog (add_task_to_day date dialog s).2
    = add_task_to_day date dialog s.
Proof.
  split; [|split].
  - unfold add_habit_global.
    destruct (truthy (strip entry)) eqn:Ht; simpl; [|by rewrite ?Ht].
    destruct (py_in (strip entry) (habits s)) eqn:Hin; simpl.
    + by rewrite ?Ht, ?Hin.
    + rewrite ?Ht. simpl. rewrite py_in_true; [done|].
      apply elem_of_app. right. by left.
  - unfold add_task_template.
    destruct (truthy (strip entry)) eqn:Ht; simpl; [|by rewrite ?Ht].
    destruct (py_in (strip entry) (task_templates s)) eqn:Hin; simpl.
    + by rewrite ?Ht, ?Hin.
    + rewrite ?Ht. simpl. rewrite py_in_true; [done|].
      apply elem_of_app. right. by left.
  - destruct dialog as [t|]; [|done].
    destruct (all_space t) eqn:Ht.
    + destruct (add_task_to_day_blank date s) as [_ Hb].
      rewrite (Hb t Ht). cbn [snd]. apply (Hb t Ht).
    + destruct (daily_data s !! date) as [r|] eqn:Hr.
      * rewrite (add_task_to_day_present date t s r Ht Hr).
        destruct (py_in (strip t) (Day.tasks r)) eqn:Hin; cbn [snd].
        -- rewrite (add_task_to_day_present date t s r Ht Hr). by rewrite Hin.
        -- erewrite add_task_to_day_present;
             [|done|cbn [daily_data]; apply lookup_insert_eq].
           cbn [Day.tasks]. rewrite py_in_true; [done|].
           apply elem_of_app. right. by left.
      * destruct (add_task_to_day_missing_date date t s Ht Hr) as [Hm _].
        rewrite Hm. cbn [snd]. apply Hm.
Qed.

Lemma sum_ones_delete (m : gmap string bool) (k : string) (l : list string) :
  sum_ones (λ t, dict_get (delete k m) t false) l
  = sum_ones (λ t, dict_get m t false) l
    - Z.of_nat (occurrences k l) * (if dict_get m k false then 1 else 0).
Proof.
  induction l as [|t l IH]; [done|]. cbn [sum_ones]. rewrite IH. clear IH.
  set (rest := sum_ones (λ t, dict_get m t false) l).
  destruct (decide (t = k)) as [->|Hne].
  - rewrite occurrences_cons_eq.
    assert (dict_get (delete k m) k false = false) as ->.
    { unfold dict_get. by rewrite lookup_delete_eq. }
    destruct (dict_get m k false); lia.
  - assert (dict_get (delete k m) t false = dict_get m t false) as ->.
    { unfold dict_get. by rewrite lookup_delete_ne. }
    assert (occurrences k (t :: l) = occurrences k l) as ->.
    { unfold occurrences. by rewrite filter_cons_False. }
    lia.
Qed.

Lemma delete_task_present task date s r l1 l2 :
  daily_data s !! date = Some r →
  Day.tasks r = l1 ++ task :: l2 → task ∉ l1 →
  delete_task task date true s
  = (Ok tt,
     mkStore (<[date := Day.mk (l1 ++ l2) (delete task (Day.task_status r))
                          (Day.habits r)]> (daily_data s))
       (habits s) (task_templates s)).
Proof.
  intros Hr Hl Hl1.
  unfold delete_task, try_except, day_at, set_day, mbind, get, put, lift, mret.
  rewrite Hr. rewrite py_in_true.
  2:{ rewrite Hl. apply elem_of_app. right. by left. }
  rewrite Hl, py_remove_middle by done. reflexivity.
Qed.

(** X16: delete_task never raises, and it leaves the store alone when the
    deletion is declined, when the date has no record and when the task is
    not in that day's list. *)
Theorem delete_task_guarded task date confirm s :
  (delete_task task date confirm s).1 = Ok tt
  ∧ (confirm = false → delete_task task date confirm s = (Ok tt, s))
  ∧ (daily_data s !! date = None → delete_task task date confirm s = (Ok tt, s))
  ∧ (∀ r, daily_data s !! date = Some r → task ∉ Day.tasks r →
          delete_task task date confirm s = (Ok tt, s)).
Proof.
  unfold delete_task, try_except, day_at, set_day, mbind, get, put, lift, mret.
  destruct confirm; [|by repeat split].
  destruct (daily_data s !! date) as [r|] eqn:Hr.
  - destruct (py_in task (Day.tasks r)) eqn:Hin.
    + apply bool_decide_eq_true in Hin.
      destruct (first_occurrence task _ Hin) as (l1 & l2 & Hl & Hl1).
      rewrite Hl, py_remove_middle by done.
      split; [done|]. split; [done|]. split; [done|].
      intros r' [= <-] Hout. exfalso. apply Hout. rewrite Hl.
      apply elem_of_app. right. by left.
    + by repeat split.
  - by repeat split.
Qed.

(** X17: deleting a listed task removes its first entry and its status key from
    that day only: the total drops by one and the done count drops by the
    number of entries of that name when the task was ticked, so a second
    entry of the same name is left unticked. *)
Theorem delete_task_effect task date s r :
  daily_data s !! date = Some r → task ∈ Day.tasks r →
  ∃ l1 l2 s' r',
    Day.tasks r = l1 ++ task :: l2
    ∧ (task ∉ l1)
    ∧ delete_task task date true s = (Ok tt, s')
    ∧ daily_data s' !! date = Some r'
    ∧ Day.tasks r' = l1 ++ l2
    ∧ Day.task_status r' !! task = None
    ∧ (∀ k, k ≠ task → Day.task_status r' !! k = Day.task_status r !! k)
    ∧ Day.habits r' = Day.habits r
    ∧ totalTaskCount r' = totalTaskCount r - 1
    ∧ completedTaskCount r'
      = completedTaskCount r
        - Z.of_nat (occurrences task (Day.tasks r))
          * (if dict_get (Day.task_status r) task false then 1 else 0)
    ∧ (∀ d, d ≠ date → daily_data s' !! d = daily_data s !! d)
    ∧ habits s' = habits s
    ∧ task_templates s' = task_templates s.
Proof.
  intros Hr Hin.
  destruct (first_occurrence task _ Hin) as (l1 & l2 & Hl & Hl1).
  exists l1, l2. eexists _, _. split; [done|]. split; [done|].
  split; [by apply (delete_task_present task date s r l1 l2)|].
  cbn [daily_data habits task_templates]. rewrite lookup_insert_eq.
  split; [done|]. cbn [Day.tasks Day.task_status Day.habits].
  split; [done|]. split; [apply lookup_delete_eq|].
  split; [by intros k Hk; apply lookup_delete_ne|]. split; [done|].
  split; [|split; [|split; [|done]]].
  - unfold totalTaskCount. cbn [Day.tasks]. rewrite Hl, !length_app. simpl. lia.
  - rewrite <- !completed_of_count. unfold completed_of.
    cbn [Day.tasks Day.task_status].
    pose proof (sum_ones_delete (Day.task_status r) task (Day.tasks r)) as Hd.
    rewrite Hl in Hd. rewrite sum_ones_app in Hd. cbn [sum_ones] in Hd.
    rewrite <- Hl in Hd. rewrite sum_ones_app.
    assert (dict_get (delete task (Day.task_status r)) task false = false) as Hk.
    { unfold dict_get. by rewrite lookup_delete_eq. }
    rewrite Hk in Hd. lia.
  - intros d Hd. by rewrite lookup_insert_ne.
Qed.

Lemma delete_task_effect_witness :
  ∃ s' r',
    delete_task "B" "2024-06-03" true sleepy_week = (Ok tt, s')
    ∧ daily_data s' !! "2024-06-03"%string = Some r'
    ∧ totalTaskCount r' = 3 - 1.
Proof.
  destruct (delete_task_effect "B" "2024-06-03" sleepy_week
              (Day.mk ["A"; "B"; "C"]%string
                 (dict_all_false ["A"; "B"; "C"]%string)
                 (<["Sleep"%string := true]>
                    (dict_all_false ["Sleep"; "Read"]%string))))
    as (l1 & l2 & s' & r' & _ & _ & Hs & Hr' & _ & _ & _ & _ & Ht & _).
  - vm_compute. reflexivity.
  - apply (bool_decide_unpack _). vm_compute. exact I.
  - exists s', r'. split; [exact Hs|]. split; [exact Hr' | exact Ht].
Defined.

(** X18: a task added to a day and deleted again leaves the store as it was,
    provided the day had no status entry under that name. *)
Theorem add_then_delete_task date t s r :
  all_space t = false → daily_data s !! date = Some r →
  strip t ∉ Day.tasks r → Day.task_status r !! strip t = None →
  delete_task (strip t) date true (add_task_to_day date (Some t) s).2
  = (Ok tt, s).
Proof.
  intros Ht Hr Hnew Hkey. rewrite (add_task_to_day_present date t s r Ht Hr).
  rewrite py_in_false by done. cbn [snd].
  erewrite (delete_task_present (strip t) date _ _ (Day.tasks r) []);
    [|cbn [daily_data]; apply lookup_insert_eq|done|done].
  f_equal. apply store_eq; cbn [daily_data habits task_templates]; [|done|done].
  rewrite insert_insert_eq. apply insert_id. rewrite Hr. f_equal.
  destruct r as [ts st hb]. cbn [Day.tasks Day.task_status Day.habits] in *.
  rewrite app_nil_r. f_equal. rewrite delete_insert_eq. symmetry. by apply delete_id.
Qed.

Lemma add_then_delete_task_witness :
  delete_task (strip " Call home ") "2024-06-04" true
    (add_task_to_day "2024-06-04" (Some " Call home "%string) sleepy_week).2
  = (Ok tt, sleepy_week).
Proof.
  apply (add_then_delete_task "2024-06-04" " Call home " sleepy_week
           (Day.mk ["A"; "B"; "C"]%string
              (dict_all_false ["A"; "B"; "C"]%string)
              (dict_all_false ["Sleep"; "Read"]%string))).
  - reflexivity.
  - vm_compute. reflexivity.
  - apply (bool_decide_unpack _). vm_compute. exact I.
  - vm_compute. reflexivity.
Defined.

Lemma edit_task_renames old_task new_task date s r l1 l2 :
  trimmed new_task → new_task ≠ old_task →
  daily_data s !! date = Some r →
  Day.tasks r = l1 ++ old_task :: l2 → old_task ∉ l1 →
  new_task ∉ Day.tasks r →
  edit_task old_task date (Some new_task) s
  = (Ok tt,
     mkStore
       (<[date := Day.mk (l1 ++ new_task :: l2)
                    (<[new_task := dict_get (Day.task_status r) old_task false]>
                       (delete old_task (Day.task_status r)))
                    (Day.habits r)]> (daily_data s))
       (habits s) (task_templates s)).
Proof.
  intros [Hstrip Hne] Hdiff Hr Hl Hl1 Hnew.
  unfold edit_task, try_except, day_at, set_day, mbind, get, put, lift, mret.
  rewrite Hstrip, truthy_true by done.
  rewrite bool_decide_eq_false_2 by done. cbn [andb negb].
  rewrite Hr. rewrite py_in_false by done.
  rewrite Hl, py_index_middle by done.
  unfold dict_pop, dict_get. by rewrite list_insert_at.
Qed.

(** X19: edit_task never raises, and it leaves the store alone when the date has
    no record, when the old name is not in that day's list and when the new
    name is already in it. *)
Theorem edit_task_guarded old_task date dialog s :
  (edit_task old_task date dialog s).1 = Ok tt
  ∧ (daily_data s !! date = None →
     edit_task old_task date dialog s = (Ok tt, s))
  ∧ (∀ r, daily_data s !! date = Some r →
          old_task ∉ Day.tasks r ∨
          (∃ t, dialog = Some t ∧ strip t ∈ Day.tasks r) →
          edit_task old_task date dialog s = (Ok tt, s)).
Proof.
  unfold edit_task, try_except, day_at, set_day, mbind, get, put, lift, mret.
  destruct dialog as [new_task|]; [|by repeat split].
  destruct (truthy new_task && truthy (strip new_task)
            && negb (bool_decide (new_task = old_task))); [|by repeat split].
  destruct (daily_data s !! date) as [r|] eqn:Hr; [|by repeat split].
  destruct (py_in (strip new_task) (Day.tasks r)) eqn:Hin; [by repeat split|].
  apply bool_decide_eq_false in Hin.
  destruct (py_index old_task (Day.tasks r)) as [idx|] eqn:Hidx.
  - split; [done|]. split; [done|]. intros r' [= <-] [Hout|(t & [= <-] & Ht)].
    + destruct (py_index_Ok _ _ _ Hidx) as (l1 & l2 & Hl & _).
      exfalso. apply Hout. rewrite Hl. apply elem_of_app. right. by left.
    + done.
  - by repeat split.
Qed.

(** X20: renaming a task of a day keeps its place in the list and its status;
    when the old name was listed once, the day's done count, total and
    percentage are unchanged. *)
Theorem edit_task_keeps_rate old_task new_task date s r :
  trimmed new_task → new_task ≠ old_task →
  daily_data s !! date = Some r →
  occurrences old_task (Day.tasks r) = 1%nat →
  new_task ∉ Day.tasks r →
  ∃ l1 l2 s' r',
    Day.tasks r = l1 ++ old_task :: l2
    ∧ edit_task old_task date (Some new_task) s = (Ok tt, s')
    ∧ daily_data s' !! date = Some r'
    ∧ Day.tasks r' = l1 ++ new_task :: l2
    ∧ Day.task_status r' !! new_task
      = Some (dict_get (Day.task_status r) old_task false)
    ∧ totalTaskCount r' = totalTaskCount r
    ∧ completedTaskCount r' = completedTaskCount r
    ∧ day_percent r' = day_percent r.
Proof.
  intros Hnew Hdiff Hr Hone Hout.
  assert (Hin : old_task ∈ Day.tasks r).
  { destruct (decide (old_task ∈ Day.tasks r)) as [|Hn]; [done|].
    rewrite occurrences_absent in Hone by done. lia. }
  destruct (first_occurrence old_task _ Hin) as (l1 & l2 & Hl & Hl1).
  assert (Hl2 : old_task ∉ l2).
  { intros Hl2. destruct (first_occurrence old_task _ Hl2) as (m1 & m2 & Hm & _).
    rewrite Hl, Hm in Hone.
    rewrite occurrences_app, occurrences_cons_eq, occurrences_app,
      occurrences_cons_eq in Hone. lia. }
  exists l1, l2. eexists _, _. split; [done|].
  split; [by apply (edit_task_renames old_task new_task date s r l1 l2)|].
  cbn [daily_data]. rewrite lookup_insert_eq. split; [done|].
  cbn [Day.tasks Day.task_status]. split; [done|].
  split; [apply lookup_insert_eq|].
  assert (Htotal : totalTaskCount
                     (Day.mk (l1 ++ new_task :: l2)
                        (<[new_task := dict_get (Day.task_status r) old_task false]>
                           (delete old_task (Day.task_status r)))
                        (Day.habits r))
                   = totalTaskCount r).
  { unfold totalTaskCount. cbn [Day.tasks]. rewrite Hl, !length_app. done. }
  assert (Hcount : completedTaskCount
                     (Day.mk (l1 ++ new_task :: l2)
                        (<[new_task := dict_get (Day.task_status r) old_task false]>
                           (delete old_task (Day.task_status r)))
                        (Day.habits r))
                   = completedTaskCount r).
  { rewrite <- !completed_of_count. unfold completed_of.
    cbn [Day.tasks Day.task_status]. rewrite Hl, !sum_ones_app.
    cbn [sum_ones].
    assert (Hother : ∀ l : list string,
               old_task ∉ l → new_task ∉ l →
               sum_ones
                 (λ t, dict_get
                         (<[new_task := dict_get (Day.task_status r) old_task false]>
                            (delete old_task (Day.task_status r))) t false) l
               = sum_ones (λ t, dict_get (Day.task_status r) t false) l).
    { intros l Ho Hn. apply sum_ones_ext. intros t Ht. unfold dict_get.
      rewrite lookup_insert_ne by (intros ->; done).
      by rewrite lookup_delete_ne by (intros ->; done). }
    assert (dict_get
              (<[new_task := dict_get (Day.task_status r) old_task false]>
                 (delete old_task (Day.task_status r))) new_task false
            = dict_get (Day.task_status r) old_task false) as Hmoved.
    { unfold dict_get at 1. by rewrite lookup_insert_eq. }
    rewrite !Hother, Hmoved.
    - done.
    - done.
    - intros Hn. apply Hout. rewrite Hl. apply elem_of_app. right. by right.
    - done.
    - intros Hn. apply Hout. rewrite Hl. apply elem_of_app. by left. }
  split; [done|]. split; [done|].
  by rewrite !day_percent_unfold, Hcount, Htotal.
Qed.

Lemma edit_task_keeps_rate_witness :
  ∃ s' r',
    edit_task "B" "2024-06-03" (Some "Run"%string) sleepy_week = (Ok tt, s')
    ∧ daily_data s' !! "2024-06-03"%string = Some r'
    ∧ day_percent r'
      = day_percent
          (Day.mk ["A"; "B"; "C"]%string
             (dict_all_false ["A"; "B"; "C"]%string)
             (<["Sleep"%string := true]>
                (dict_all_false ["Sleep"; "Read"]%string))).
Proof.
  destruct (edit_task_keeps_rate "B" "Run" "2024-06-03" sleepy_week
              (Day.mk ["A"; "B"; "C"]%string
                 (dict_all_false ["A"; "B"; "C"]%string)
                 (<["Sleep"%string := true]>
                    (dict_all_false ["Sleep"; "Read"]%string))))
    as (l1 & l2 & s' & r' & _ & Hs & Hr' & _ & _ & _ & _ & Hp).
  - split; [reflexivity | discriminate].
  - discriminate.
  - vm_compute. reflexivity.
  - vm_compute. reflexivity.
  - apply (bool_decide_unpack _). vm_compute. exact I.
  - exists s', r'. split; [exact Hs|]. split; [exact Hr' | exact Hp].
Defined.

(** X21: a new task template resets the status of that name to false in every
    day: a day-specific task of the same name that was ticked is unticked,
    so no day's done count grows, while every day's total grows by one. *)
Theorem add_task_template_resets s name date r :
  trimmed name → name ∉ task_templates s →
  daily_data s !! date = Some r →
  ∃ r', daily_data (add_task_template name s) !! date = Some r'
    ∧ Day.task_status r' !! name = Some false
    ∧ (∀ k, k ≠ name → Day.task_status r' !! k = Day.task_status r !! k)
    ∧ Day.habits r' = Day.habits r
    ∧ totalTaskCount r' = totalTaskCount r + 1
    ∧ completedTaskCount r'
      = completedTaskCount r
        - Z.of_nat (occurrences name (Day.tasks r))
          * (if dict_get (Day.task_status r) name false then 1 else 0)
    ∧ completedTaskCount r' ≤ completedTaskCount r.
Proof.
  intros Hname Hnew Hr. rewrite add_task_template_new by done.
  cbn [daily_data]. rewrite lookup_fmap, Hr. cbn [fmap option_fmap option_map].
  eexists. split; [done|]. cbn [Day.tasks Day.task_status Day.habits].
  split; [apply lookup_insert_eq|].
  split; [by intros k Hk; apply lookup_insert_ne|]. split; [done|].
  assert (Hcount : completedTaskCount
                     (Day.mk (Day.tasks r ++ [name])
                        (<[name := false]> (Day.task_status r)) (Day.habits r))
                   = completedTaskCount r
                     - Z.of_nat (occurrences name (Day.tasks r))
                       * (if dict_get (Day.task_status r) name false
                          then 1 else 0)).
  { rewrite <- !completed_of_count. unfold completed_of.
    cbn [Day.tasks Day.task_status].
    rewrite sum_ones_app, sum_ones_insert. cbn [sum_ones].
    assert (dict_get (<[name := false]> (Day.task_status r)) name false = false)
      as Hreset.
    { unfold dict_get. by rewrite lookup_insert_eq. }
    rewrite Hreset.
    destruct (dict_get (Day.task_status r) name false); lia. }
  split; [|split; [done|]].
  - unfold totalTaskCount. cbn [Day.tasks]. rewrite length_app. simpl. lia.
  - rewrite Hcount.
    destruct (dict_get (Day.task_status r) name false); lia.
Qed.

Lemma add_task_template_resets_witness :
  ∃ r', daily_data (add_task_template "Call home" daytask_week)
          !! "2024-06-04"%string = Some r'
        ∧ Day.task_status r' !! "Call home"%string = Some false.
Proof.
  destruct (add_task_template_resets daytask_week "Call home" "2024-06-04"
              (Day.mk ["A"; "B"; "C"; "Call home"]%string
                 (<["Call home"%string := false]>
                    (dict_all_false ["A"; "B"; "C"]%string))
                 (dict_all_false ["Sleep"; "Read"]%string)))
    as (r' & Hr' & Hs & _).
  - split; [reflexivity | discriminate].
  - apply (bool_decide_unpack _). vm_compute. exact I.
  - vm_compute. reflexivity.
  - exists r'. split; [exact Hr' | exact Hs].
Defined.

Lemma has_tasks_false s :
  has_tasks s = false →
  task_templates s = []
  ∧ ∀ date r, daily_data s !! date = Some r → Day.tasks r = [].
Proof.
  unfold has_tasks. intros [Ht Hd]%orb_false_elim. split.
  - unfold len in Ht. destruct (task_templates s); [done|].
    simpl in Ht. apply Z.ltb_ge in Ht. lia.
  - intros date r Hr. apply elem_of_map_to_list in Hr.
    destruct (Day.tasks r) as [|t ts] eqn:Htasks; [done|]. exfalso.
    assert (Hex : existsb
                    (λ '(_, r), match Day.tasks r with [] => false | _ => true end)
                    (map_to_list (daily_data s)) = true).
    { apply existsb_exists. exists (date, r). split.
      - by apply list_elem_of_In.
      - by rewrite Htasks. }
    congruence.
Qed.

(** X22: after a confirmed clear_all_tasks there is no template and no task
    left; every day shows 0 percent and so does the week.  The habit flags
    and the habit list are untouched. *)
Theorem clear_all_tasks_effect week_start s :
  let s' := clear_all_tasks true s in
  task_templates s' = []
  ∧ habits s' = habits s
  ∧ (∀ date r, daily_data s !! date = Some r →
       ∃ r', daily_data s' !! date = Some r'
         ∧ Day.tasks r' = []
         ∧ Day.habits r' = Day.habits r
         ∧ day_percent r' = Ok 0)
  ∧ (∀ date, daily_data s !! date = None → daily_data s' !! date = None)
  ∧ weekly_percent week_start s' = Ok 0.
Proof.
  intros s'.
  assert (Hdays : task_templates s' = [] ∧ habits s' = habits s
                  ∧ (∀ date r, daily_data s !! date = Some r →
                       ∃ r', daily_data s' !! date = Some r'
                         ∧ Day.tasks r' = []
                         ∧ Day.habits r' = Day.habits r)
                  ∧ (∀ date, daily_data s !! date = None →
                             daily_data s' !! date = None)).
  { subst s'. unfold clear_all_tasks.
    destruct (has_tasks s) eqn:Hhas; cbn [negb].
    - cbn [task_templates habits daily_data]. split; [done|]. split; [done|].
      split.
      + intros date r Hr. rewrite lookup_fmap, Hr.
        cbn [fmap option_fmap option_map]. by eexists.
      + intros date Hnone. by rewrite lookup_fmap, Hnone.
    - destruct (has_tasks_false s Hhas) as [Ht Hd].
      split; [done|]. split; [done|]. split; [|done].
      intros date r Hr. exists r. split; [done|]. split; [|done].
      by apply (Hd date). }
  destruct Hdays as (Ht & Hh & Hsome & Hnone).
  split; [done|]. split; [done|].
  assert (Hzero : ∀ r', Day.tasks r' = [] → day_percent r' = Ok 0).
  { intros r' Hr'. unfold day_percent, completed_of. rewrite Hr'.
    vm_compute. reflexivity. }
  split; [|split; [done|]].
  - intros date r Hr. destruct (Hsome date r Hr) as (r' & Hr' & Htasks & Hhab).
    exists r'. split; [done|]. split; [done|]. split; [done|]. by apply Hzero.
  - assert (Htot : week_sum totalTaskCount week_start s' = 0).
    { unfold week_sum.
      induction range7 as [|i l IH]; [done|]. cbn [fmap list_fmap foldr].
      rewrite IH.
      destruct (daily_data s' !! week_date week_start i) as [r'|] eqn:Hr'; [|done].
      destruct (daily_data s !! week_date week_start i) as [r|] eqn:Hr.
      - destruct (Hsome _ r Hr) as (r2 & Hr2 & Htasks & _).
        rewrite Hr' in Hr2. injection Hr2 as <-.
        unfold totalTaskCount. by rewrite Htasks.
      - rewrite (Hnone _ Hr) in Hr'. done. }
    unfold weekly_percent. rewrite weekly_counts_sums, Htot. reflexivity.
Qed.

(** X23: clear_all_habits, once confirmed on a non-empty habit list, empties the
    list and the habits map of every day and touches nothing else; on an
    empty list it does nothing, so flags left in a day record stay. *)
Theorem clear_all_habits_effect s :
  (habits s ≠ [] →
   let s' := clear_all_habits true s in
   habits s' = []
   ∧ task_templates s' = task_templates s
   ∧ (∀ date h, habit_flag s' h date = false)
   ∧ ∀ date, daily_data s' !! date
             = (λ r, Day.mk (Day.tasks r) (Day.task_status r) ∅)
                 <$> daily_data s !! date)
  ∧ (habits s = [] → ∀ confirm, clear_all_habits confirm s = s)
  ∧ clear_all_habits false s = s.
Proof.
  unfold clear_all_habits. destruct (habits s) as [|h hs] eqn:Hh.
  - by repeat split.
  - split; [|by repeat split]. intros _.
    cbn [habits task_templates daily_data]. split; [done|]. split; [done|].
    assert (Hlook : ∀ date,
               (Day.with_habits (λ _, ∅) <$> daily_data s) !! date
               = (λ r, Day.mk (Day.tasks r) (Day.task_status r) ∅)
                   <$> daily_data s !! date).
    { intros date. by rewrite lookup_fmap. }
    split; [|done]. intros date h'. unfold habit_flag.
    cbn [daily_data]. rewrite Hlook.
    destruct (daily_data s !! date) as [r|]; [|done].
    cbn [fmap option_fmap option_map Day.habits].
    by rewrite lookup_empty.
Qed.

(** ** Further properties of the habit callbacks *)

Lemma edit_habit_cases old_habit dialog s :
  edit_habit old_habit dialog s = (Ok tt, s)
  ∨ ∃ new_habit l1 l2,
      habits s = l1 ++ old_habit :: l2
      ∧ (old_habit ∉ l1)
      ∧ (new_habit ∉ habits s)
      ∧ edit_habit old_habit dialog s
        = (Ok tt,
           mkStore (rename_in_day old_habit new_habit <$> daily_data s)
             (l1 ++ new_habit :: l2) (task_templates s)).
Proof.
  unfold edit_habit, try_except, mbind, get, put, lift, mret.
  destruct dialog as [new_habit|]; [|by left].
  destruct (truthy new_habit && truthy (strip new_habit)
            && negb (bool_decide (new_habit = old_habit))); [|by left].
  destruct (py_in (strip new_habit) (habits s)) eqn:Hin; [by left|].
  apply bool_decide_eq_false in Hin.
  destruct (py_index old_habit (habits s)) as [idx|] eqn:Hidx; [|by left].
  destruct (py_index_Ok _ _ _ Hidx) as (l1 & l2 & Hl & Hl1 & <-).
  right. exists (strip new_habit), l1, l2.
  split; [done|]. split; [done|]. split; [done|].
  rewrite Hl at 1. by rewrite list_insert_at.
Qed.

(** X24: edit_habit never raises, and it leaves the store alone when the old
    name is not in the habit list and when the new name is already in
    it. *)
Theorem edit_habit_guarded old_habit dialog s :
  (edit_habit old_habit dialog s).1 = Ok tt
  ∧ (old_habit ∉ habits s → edit_habit old_habit dialog s = (Ok tt, s))
  ∧ (∀ t, dialog = Some t → strip t ∈ habits s →
          edit_habit old_habit dialog s = (Ok tt, s)).
Proof.
  split; [|split].
  - destruct (edit_habit_cases old_habit dialog s)
      as [->|(n & l1 & l2 & _ & _ & _ & ->)]; done.
  - intros Hout.
    destruct (edit_habit_cases old_habit dialog s)
      as [->|(n & l1 & l2 & Hl & _)]; [done|].
    exfalso. apply Hout. rewrite Hl. apply elem_of_app. right. by left.
  - intros t -> Hin.
    unfold edit_habit, try_except, mbind, get, put, lift, mret.
    destruct (truthy t && truthy (strip t) && negb (bool_decide (t = old_habit)));
      [|done].
    by rewrite py_in_true.
Qed.

Lemma rename_in_day_flag a b (r : Day.t) :
  Day.habits (rename_in_day a b r) !! b
  = Some (dict_get (Day.habits r) a false).
Proof.
  unfold rename_in_day, Day.with_habits, dict_pop, dict_get.
  cbn [Day.habits]. apply lookup_insert_eq.
Qed.

Lemma rename_in_day_other a b h (r : Day.t) :
  h ≠ a → h ≠ b →
  Day.habits (rename_in_day a b r) !! h = Day.habits r !! h.
Proof.
  intros Ha Hb. unfold rename_in_day, Day.with_habits, dict_pop.
  cbn [Day.habits]. rewrite lookup_insert_ne by done. by apply lookup_delete_ne.
Qed.

Lemma trueCount_ext week_start s1 h1 s2 h2 :
  (∀ date, habit_flag s1 h1 date = habit_flag s2 h2 date) →
  trueCount week_start s1 h1 = trueCount week_start s2 h2.
Proof.
  intros Hflags. unfold trueCount. do 2 f_equal.
  apply List.filter_ext. intros i. apply Hflags.
Qed.

(** X25: a renamed habit keeps its ticks: on every date the flag of the new
    name is the flag the old name had, the flags of the other habits are
    unchanged, and the week's count for the new name is the old one. *)
Theorem edit_habit_keeps_flags week_start s a b :
  trimmed b → b ≠ a → a ∈ habits s → b ∉ habits s →
  let s1 := (edit_habit a (Some b) s).2 in
  (∀ date, habit_flag s1 b date = habit_flag s a date)
  ∧ (∀ h date, h ≠ a → h ≠ b → habit_flag s1 h date = habit_flag s h date)
  ∧ trueCount week_start s1 b = trueCount week_start s a.
Proof.
  intros Hb Hab Hin Hnew s1.
  destruct (first_occurrence a (habits s) Hin) as (l1 & l2 & Hl & Hl1).
  assert (Hs1 : s1 = mkStore (rename_in_day a b <$> daily_data s)
                       (l1 ++ b :: l2) (task_templates s)).
  { subst s1. by rewrite (edit_habit_renames a b s l1 l2). }
  assert (Hflag : ∀ date, habit_flag s1 b date = habit_flag s a date).
  { intros date. rewrite Hs1. unfold habit_flag. cbn [daily_data].
    rewrite lookup_fmap. destruct (daily_data s !! date) as [r|]; [|done].
    cbn [fmap option_fmap option_map]. rewrite rename_in_day_flag.
    unfold dict_get. by destruct (Day.habits r !! a) as [[|]|]. }
  split; [done|]. split; [|by apply trueCount_ext].
  intros h date Ha Hh. rewrite Hs1. unfold habit_flag. cbn [daily_data].
  rewrite lookup_fmap. destruct (daily_data s !! date) as [r|]; [|done].
  cbn [fmap option_fmap option_map]. by rewrite rename_in_day_other.
Qed.

Lemma edit_habit_keeps_flags_witness :
  trueCount monday (edit_habit "Sleep" (Some "Nap"%string) sleepy_week).2 "Nap"
  = trueCount monday sleepy_week "Sleep".
Proof.
  pose proof (edit_habit_keeps_flags monday sleepy_week "Sleep" "Nap") as H.
  destruct H as (_ & _ & H).
  - split; [reflexivity | discriminate].
  - discriminate.
  - apply (bool_decide_unpack _). vm_compute. exact I.
  - apply (bool_decide_unpack _). vm_compute. exact I.
  - exact H.
Defined.

Lemma filter_all_false {A} (f : A → bool) (l : list A) :
  (∀ x, f x = false) → List.filter f l = [].
Proof.
  intros Hf. induction l as [|x l IH]; [done|]. cbn. by rewrite Hf.
Qed.

(** X26: a newly added habit starts unticked on every date, also where a day
    record held a stale flag under that name; its count for the week is 0
    and the flags of the other habits are unchanged. *)
Theorem add_habit_starts_unticked week_start x s :
  trimmed x → x ∉ habits s →
  let s' := add_habit_global x s in
  habits s' = habits s ++ [x]
  ∧ (∀ date, habit_flag s' x date = false)
  ∧ trueCount week_start s' x = 0
  ∧ (∀ h date, h ≠ x → habit_flag s' h date = habit_flag s h date).
Proof.
  intros Hx Hnew s'. subst s'. rewrite add_habit_global_new by done.
  cbn [habits]. split; [done|].
  assert (Hflag : ∀ date,
             habit_flag
               (mkStore (Day.with_habits (λ h, <[x := false]> h) <$> daily_data s)
                  (habits s ++ [x]) (task_templates s)) x date = false).
  { intros date. unfold habit_flag. cbn [daily_data]. rewrite lookup_fmap.
    destruct (daily_data s !! date) as [r|]; [|done].
    cbn [fmap option_fmap option_map Day.with_habits Day.habits].
    rewrite lookup_insert_eq. by apply bool_decide_eq_false. }
  split; [done|]. split.
  - unfold trueCount. rewrite filter_all_false; [done|]. intros i. apply Hflag.
  - intros h date Hh. unfold habit_flag. cbn [daily_data]. rewrite lookup_fmap.
    destruct (daily_data s !! date) as [r|]; [|done].
    cbn [fmap option_fmap option_map Day.with_habits Day.habits].
    by rewrite lookup_insert_ne.
Qed.

Lemma add_habit_starts_unticked_witness :
  trueCount monday (add_habit_global "Gym" sleepy_week) "Gym" = 0.
Proof.
  pose proof (add_habit_starts_unticked monday "Gym" sleepy_week) as H.
  destruct H as (_ & _ & H & _).
  - split; [reflexivity | discriminate].
  - apply (bool_decide_unpack _). vm_compute. exact I.
  - exact H.
Defined.

(** X27: adding a habit and deleting it again restores the store, provided no
    day record held a flag under that name before. *)
Theorem add_then_delete_habit x s :
  trimmed x → x ∉ habits s →
  (∀ date r, daily_data s !! date = Some r → Day.habits r !! x = None) →
  delete_habit x true (add_habit_global x s) = (Ok tt, s).
Proof.
  intros Hx Hnew Hfree. rewrite add_habit_global_new by done.
  rewrite (delete_habit_present x _ (habits s) []); [|done|done].
  f_equal. apply store_eq; cbn [daily_data habits task_templates].
  - apply map_eq. intros date. rewrite !lookup_fmap.
    destruct (daily_data s !! date) as [r|] eqn:Hr; [|done].
    cbn [fmap option_fmap option_map]. f_equal.
    destruct r as [ts st hb]. unfold Day.with_habits. cbn [Day.habits Day.tasks
      Day.task_status]. f_equal. rewrite delete_insert_eq.
    apply delete_id. apply (Hfree date _ Hr).
  - apply app_nil_r.
  - done.
Qed.

Lemma add_then_delete_habit_witness :
  delete_habit "Gym" true (add_habit_global "Gym" sleepy_week)
  = (Ok tt, sleepy_week).
Proof.
  apply (add_then_delete_habit "Gym" sleepy_week).
  - split; [reflexivity | discriminate].
  - apply (bool_decide_unpack _). vm_compute. exact I.
  - intros date r Hr.
    assert (Hall : map_Forall (λ _ r, Day.habits r !! "Gym"%string = None)
                     (daily_data sleepy_week)).
    { apply (bool_decide_unpack _). vm_compute. exact I. }
    exact (Hall date r Hr).
Defined.

(** ** The invariant of the data model *)

Lemma covered_same_habits s s' :
  habits s' = habits s →
  (∀ date r', daily_data s' !! date = Some r' →
     ∃ r, daily_data s !! date = Some r
          ∧ ∀ h, is_Some (Day.habits r !! h) → is_Some (Day.habits r' !! h)) →
  habits_covered s → habits_covered s'.
Proof.
  intros Hh Hdays Hcov date r' h Hr' Hin. rewrite Hh in Hin.
  destruct (Hdays date r' Hr') as (r & Hr & Hkeep).
  apply Hkeep. by apply (Hcov date r h).
Qed.

Lemma one_day_update_well_formed s s' :
  one_day_update s s' → well_formed s → well_formed s'.
Proof.
  intros [->|(date & r & r' & Hr & Hkeep & ->)]; [done|].
  intros (Hnd & Hnt & Hcov). split; [done|]. split; [done|].
  apply (covered_same_habits s); [done| |done].
  intros d r2. cbn [daily_data].
  destruct (decide (date = d)) as [->|Hne].
  - rewrite lookup_insert_eq. intros [= <-]. by exists r.
  - rewrite lookup_insert_ne by done. intros Hr2. by exists r2.
Qed.

Lemma update_habit_one_day habit date v s :
  one_day_update s (update_habit habit date v s).2.
Proof.
  destruct (daily_data s !! date) as [r|] eqn:Hr.
  - right. exists date, r. eexists. split; [done|].
    rewrite (update_habit_present habit date v s r Hr). split; [|done].
    intros h Hh. unfold Day.with_habits. cbn [Day.habits].
    destruct (decide (habit = h)) as [->|Hne].
    + by rewrite lookup_insert_eq.
    + by rewrite lookup_insert_ne.
  - left. unfold update_habit, day_at, mbind, get, lift. by rewrite Hr.
Qed.

Lemma update_task_one_day task date v s :
  one_day_update s (update_task task date v s).2.
Proof.
  destruct (daily_data s !! date) as [r|] eqn:Hr.
  - right. exists date, r. eexists. split; [done|].
    rewrite (update_task_present task date v s r Hr). split; [|done].
    by intros h Hh.
  - left. unfold update_task, day_at, mbind, get, lift. by rewrite Hr.
Qed.

Lemma add_task_to_day_one_day date dialog s :
  one_day_update s (add_task_to_day date dialog s).2.
Proof.
  destruct dialog as [t|]; [|by left].
  destruct (all_space t) eqn:Ht.
  - left. destruct (add_task_to_day_blank date s) as [_ Hb]. by rewrite Hb.
  - destruct (daily_data s !! date) as [r|] eqn:Hr.
    + rewrite (add_task_to_day_present date t s r Ht Hr).
      destruct (py_in (strip t) (Day.tasks r)); [by left|].
      right. exists date, r. eexists. split; [done|]. split; [|done].
      by intros h Hh.
    + left. by destruct (add_task_to_day_missing_date date t s Ht Hr) as [-> _].
Qed.

Lemma edit_task_one_day old_task date dialog s :
  one_day_update s (edit_task old_task date dialog s).2.
Proof.
  unfold edit_task, try_except, day_at, set_day, mbind, get, put, lift, mret.
  destruct dialog as [new_task|]; [|by left].
  destruct (truthy new_task && truthy (strip new_task)
            && negb (bool_decide (new_task = old_task))); [|by left].
  destruct (daily_data s !! date) as [r|] eqn:Hr; [|by left].
  destruct (py_in (strip new_task) (Day.tasks r)); [by left|].
  destruct (py_index old_task (Day.tasks r)) as [idx|]; [|by left].
  right. exists date, r. eexists. split; [done|]. split; [|done].
  by intros h Hh.
Qed.

Lemma delete_task_one_day task date confirm s :
  one_day_update s (delete_task task date confirm s).2.
Proof.
  unfold delete_task, try_except, day_at, set_day, mbind, get, put, lift, mret.
  destruct confirm; [|by left].
  destruct (daily_data s !! date) as [r|] eqn:Hr; [|by left].
  destruct (py_in task (Day.tasks r)); [|by left].
  destruct (py_remove task (Day.tasks r)) as [l|]; [|by left].
  right. exists date, r. eexists. split; [done|]. split; [|done].
  by intros h Hh.
Qed.

Lemma add_habit_global_well_formed entry s :
  well_formed s → well_formed (add_habit_global entry s).
Proof.
  intros (Hnd & Hnt & Hcov). split; [by apply add_habit_global_NoDup|].
  unfold add_habit_global.
  destruct (truthy (strip entry)); cbn [negb]; [|done].
  destruct (py_in (strip entry) (habits s)); [done|].
  split; [done|]. intros date r' h. cbn [daily_data habits].
  rewrite lookup_fmap. destruct (daily_data s !! date) as [r|] eqn:Hr; [|done].
  cbn [fmap option_fmap option_map]. intros [= <-] Hin.
  unfold Day.with_habits. cbn [Day.habits].
  destruct (decide (strip entry = h)) as [->|Hne].
  - by rewrite lookup_insert_eq.
  - rewrite lookup_insert_ne by done. apply (Hcov date r h Hr).
    apply elem_of_app in Hin as [|Hin%list_elem_of_singleton]; [done|].
    congruence.
Qed.

Lemma edit_habit_well_formed old_habit dialog s :
  well_formed s → well_formed (edit_habit old_habit dialog s).2.
Proof.
  intros Hwf. pose proof Hwf as (Hnd & Hnt & Hcov).
  split; [by apply edit_habit_NoDup|].
  destruct (edit_habit_cases old_habit dialog s)
    as [->|(new_habit & l1 & l2 & Hl & Hl1 & Hnew & ->)]; [done|].
  cbn [snd task_templates]. split; [done|].
  intros date r' h. cbn [daily_data habits]. rewrite lookup_fmap.
  destruct (daily_data s !! date) as [r|] eqn:Hr; [|done].
  cbn [fmap option_fmap option_map]. intros [= <-] Hin.
  destruct (decide (h = new_habit)) as [->|Hne].
  - by rewrite rename_in_day_flag.
  - assert (Hold : h ∈ habits s ∧ h ≠ old_habit).
    { rewrite Hl in Hnd |- *.
      apply NoDup_app in Hnd as (_ & Hsep & Hnd2).
      apply NoDup_cons in Hnd2 as [Hl2 _].
      apply elem_of_app in Hin as [Hin|[?|Hin]%elem_of_cons]; [| done |].
      - split; [apply elem_of_app; by left|].
        intros ->. apply (Hsep old_habit Hin). by left.
      - split; [apply elem_of_app; right; by right|]. by intros ->. }
    destruct Hold as [Hin' Hne'].
    rewrite rename_in_day_other by done. by apply (Hcov date r h).
Qed.

Lemma delete_habit_well_formed habit confirm s :
  well_formed s → well_formed (delete_habit habit confirm s).2.
Proof.
  intros Hwf. pose proof Hwf as (Hnd & Hnt & Hcov).
  split; [by apply delete_habit_NoDup|].
  destruct (decide (habit ∈ habits s)) as [Hin|Hout];
    [|by rewrite delete_habit_absent].
  destruct confirm; [|by rewrite delete_habit_declined].
  destruct (first_occurrence habit (habits s) Hin) as (l1 & l2 & Hl & Hl1).
  rewrite (delete_habit_present habit s l1 l2 Hl Hl1).
  cbn [snd task_templates]. split; [done|].
  intros date r' h. cbn [daily_data habits]. rewrite lookup_fmap.
  destruct (daily_data s !! date) as [r|] eqn:Hr; [|done].
  cbn [fmap option_fmap option_map]. intros [= <-] Hh.
  unfold Day.with_habits. cbn [Day.habits].
  assert (Hold : h ∈ habits s ∧ h ≠ habit).
  { rewrite Hl in Hnd |- *.
    apply NoDup_app in Hnd as (_ & Hsep & Hnd2).
    apply NoDup_cons in Hnd2 as [Hl2 _].
    apply elem_of_app in Hh as [Hh|Hh].
    - split; [apply elem_of_app; by left|].
      intros ->. apply (Hsep habit Hh). by left.
    - split; [apply elem_of_app; right; by right|]. by intros ->. }
  destruct Hold as [Hin' Hne'].
  rewrite lookup_delete_ne by done. by apply (Hcov date r h).
Qed.

Lemma clear_all_habits_well_formed confirm s :
  well_formed s → well_formed (clear_all_habits confirm s).
Proof.
  intros Hwf. pose proof Hwf as (Hnd & Hnt & Hcov). unfold clear_all_habits.
  destruct (habits s); [done|]. destruct confirm; [|done].
  split; [apply NoDup_nil_2|]. split; [done|].
  intros date r' h _ Hin. cbn [habits] in Hin. by apply elem_of_nil in Hin.
Qed.

Lemma add_task_template_well_formed entry s :
  well_formed s → well_formed (add_task_template entry s).
Proof.
  intros Hwf. pose proof Hwf as (Hnd & Hnt & Hcov). unfold add_task_template.
  destruct (truthy (strip entry)); cbn [negb]; [|done].
  unfold py_in. case_bool_decide as Hin; [done|].
  split; [done|]. split.
  - cbn [task_templates]. apply NoDup_app. split; [done|].
    split; [|apply NoDup_singleton].
    intros y Hy ->%list_elem_of_singleton. done.
  - intros date r' h. cbn [daily_data habits]. rewrite lookup_fmap.
    destruct (daily_data s !! date) as [r|] eqn:Hr; [|done].
    cbn [fmap option_fmap option_map]. intros [= <-] Hh.
    cbn [Day.habits]. by apply (Hcov date r h).
Qed.

Lemma clear_all_tasks_well_formed confirm s :
  well_formed s → well_formed (clear_all_tasks confirm s).
Proof.
  intros Hwf. pose proof Hwf as (Hnd & Hnt & Hcov). unfold clear_all_tasks.
  destruct (has_tasks s); cbn [negb]; [|done]. destruct confirm; [|done].
  split; [done|]. split; [apply NoDup_nil_2|].
  intros date r' h. cbn [daily_data habits]. rewrite lookup_fmap.
  destruct (daily_data s !! date) as [r|] eqn:Hr; [|done].
  cbn [fmap option_fmap option_map]. intros [= <-] Hh.
  cbn [Day.habits]. by apply (Hcov date r h).
Qed.

Lemma step_well_formed s s' : step s s' → well_formed s → well_formed s'.
Proof.
  intros Hstep Hwf. destruct Hstep.
  - exact (one_day_update_well_formed _ _ (update_habit_one_day _ _ _ _) Hwf).
  - exact (one_day_update_well_formed _ _ (update_task_one_day _ _ _ _) Hwf).
  - by apply add_habit_global_well_formed.
  - rewrite add_habit_inline_global. by apply add_habit_global_well_formed.
  - by apply edit_habit_well_formed.
  - by apply delete_habit_well_formed.
  - by apply clear_all_habits_well_formed.
  - by apply add_task_template_well_formed.
  - exact (one_day_update_well_formed _ _ (add_task_to_day_one_day _ _ _) Hwf).
  - exact (one_day_update_well_formed _ _ (edit_task_one_day _ _ _ _) Hwf).
  - exact (one_day_update_well_formed _ _ (delete_task_one_day _ _ _ _) Hwf).
  - by apply clear_all_tasks_well_formed.
Qed.

Lemma initialize_week_data_well_formed week_start s :
  well_formed s → well_formed (initialize_week_data week_start s).
Proof.
  intros (Hnd & Hnt & Hcov).
  destruct (initialize_week_data_lookup week_start s EmptyString) as (Hh & Ht & _).
  split; [by rewrite Hh|]. split; [by rewrite Ht|].
  intros date r' h Hr' Hin. rewrite Hh in Hin.
  destruct (initialize_week_data_lookup week_start s date) as (_ & _ & Hd).
  rewrite Hd in Hr'. case_decide as Hweek.
  - injection Hr' as <-. by apply initialized_day_habits.
  - by apply (Hcov date r' h).
Qed.

(** X28: whatever the stored document holds, as long as its habit names and
    template names are unique and its day records have a flag for every
    habit, the store after start-up and after any sequence of callbacks has
    unique habit names, unique template names and, in every day record, a
    flag for every habit of the global list. *)
Theorem well_formed_invariant stored_data now s :
  well_formed
    (mkStore (default ∅ (stored_daily_data stored_data))
       (default default_habits (stored_habits stored_data))
       (default default_task_templates (stored_task_templates stored_data))) →
  rtc step (startup stored_data now) s →
  well_formed s.
Proof.
  intros Hwf Hrun.
  assert (Hstart : well_formed (startup stored_data now)).
  { unfold startup. by apply initialize_week_data_well_formed. }
  induction Hrun as [|s1 s2 s3 Hstep _ IH]; [done|].
  apply IH. by apply (step_well_formed s1).
Qed.

Lemma well_formed_invariant_witness :
  well_formed
    (add_habit_global "Yoga" (startup (mkStored None None None) 739042)).
Proof.
  apply (well_formed_invariant (mkStored None None None) 739042).
  - split; [apply default_habits_NoDup|]. split.
    + apply (bool_decide_unpack (NoDup default_task_templates)).
      vm_compute. exact I.
    + intros date r h Hr. cbn in Hr. by rewrite lookup_empty in Hr.
  - eapply rtc_l; [apply step_add_habit_global | apply rtc_refl].
Defined.


(** ** Labels and themes *)

Lemma substring_prefix_length n s :
  (n ≤ String.length s)%nat → String.length (String.substring 0 n s) = n.
Proof.
  revert s. induction n as [|n IH]; intros s Hn.
  - by destruct s.
  - destruct s as [|c s]; simpl in *; [lia|]. rewrite IH; [done | lia].
Qed.

Lemma string_length_app s1 s2 :
  String.length (s1 +:+ s2) = (String.length s1 + String.length s2)%nat.
Proof. induction s1 as [|c s1 IH]; simpl; [done|]. by rewrite IH. Qed.

(** X29: a row label is never longer than 18 characters: a name of up to 18
    characters is shown as it is, a longer one as its first 15 characters
    followed by three dots. *)
Theorem display_name_bounded name :
  (String.length (display_name name) ≤ 18)%nat
  ∧ ((String.length name ≤ 18)%nat → display_name name = name)
  ∧ ((18 < String.length name)%nat →
     ∃ head, display_name name = head +:+ "..."
             ∧ String.length head = 15%nat
             ∧ String.prefix head name = true
             ∧ String.length (display_name name) = 18%nat).
Proof.
  unfold display_name.
  destruct (Nat.leb_spec (String.length name) 18) as [Hle|Hgt].
  - split; [done|]. split; [done|]. lia.
  - assert (Hlen : String.length (String.substring 0 15 name) = 15%nat).
    { apply substring_prefix_length. lia. }
    assert (Htotal : String.length (String.substring 0 15 name +:+ "...")
                     = 18%nat).
    { rewrite string_length_app, Hlen. reflexivity. }
    split; [lia|]. split; [lia|]. intros _.
    exists (String.substring 0 15 name). split; [done|]. split; [done|].
    split; [|done]. apply String.prefix_correct. by rewrite Hlen.
Qed.

Example display_name_long :
  display_name "Shirnitik yemashlik" = "Shirnitik yemas...".
Proof. reflexivity. Qed.

(** X30: toggle always lands on "light" or "dark" and from there alternates
    between the two; is_dark holds after a toggle exactly when the theme
    was "light"; a colour name outside the table is shown as black. *)
Theorem theme_toggle_alternates current_theme :
  let t1 := ThemeManager.toggle current_theme in
  (t1 = "light" ∨ t1 = "dark")
  ∧ ThemeManager.toggle (ThemeManager.toggle t1) = t1
  ∧ ThemeManager.is_dark t1 = bool_decide (current_theme = "light")
  ∧ ∀ key,
      key ∉ ["bg"; "frame"; "text"; "accent"; "accent_light"; "border";
             "error"; "warning"; "success"] →
      ThemeManager.get current_theme key = "#000000".
Proof.
  assert (Hcases : ThemeManager.toggle current_theme = "dark"
                   ∧ bool_decide (current_theme = "light") = true
                   ∨ ThemeManager.toggle current_theme = "light"
                     ∧ bool_decide (current_theme = "light") = false).
  { unfold ThemeManager.toggle. case_bool_decide; [by left | by right]. }
  cbv zeta. split; [|split; [|split]].
  - destruct Hcases as [[-> _]|[-> _]]; [by right | by left].
  - by destruct Hcases as [[-> _]|[-> _]].
  - by destruct Hcases as [[-> ->]|[-> ->]].
  - intros key Hkey. unfold ThemeManager.get.
    assert (Hl : ThemeManager.LIGHT_MODE !! key = None).
    { apply not_elem_of_list_to_map. exact Hkey. }
    assert (Hd : ThemeManager.DARK_MODE !! key = None).
    { apply not_elem_of_list_to_map. exact Hkey. }
    case_bool_decide; by rewrite ?Hl, ?Hd.
Qed.

(** ** Trimmed habit names

    Every name a callback writes into the habit list went through [strip]
    and was not empty; the fallback list has the property too. *)

Lemma rstrip_idempotent s : rstrip (rstrip s) = rstrip s.
Proof.
  induction s as [|c s IH]; [done|]. cbn [rstrip].
  destruct (rstrip s) as [|d r] eqn:Hr.
  - destruct (isspace c) eqn:Hc; [done|]. cbn [rstrip]. by rewrite Hc.
  - cbn [rstrip]. cbn [rstrip] in IH. by rewrite IH.
Qed.

Lemma strip_idempotent s : strip (strip s) = strip s.
Proof.
  unfold strip. destruct (all_space s) eqn:Hs.
  - by rewrite (lstrip_all_space s Hs).
  - destruct (lstrip_nonblank s Hs) as (c & rest & Hl & Hc). rewrite Hl.
    assert (Hhead : ∃ r, rstrip (String c rest) = String c r).
    { cbn [rstrip]. destruct (rstrip rest); [|by eexists].
      rewrite Hc. by eexists. }
    destruct Hhead as [r Hr]. rewrite Hr. cbn [lstrip]. rewrite Hc.
    rewrite <- Hr. apply rstrip_idempotent.
Qed.

Lemma strip_trimmed entry : truthy (strip entry) = true → trimmed (strip entry).
Proof.
  intros Ht. split; [apply strip_idempotent|]. intros Hempty.
  by rewrite Hempty in Ht.
Qed.

Lemma default_habits_trimmed : Forall trimmed default_habits.
Proof. repeat constructor; discriminate. Qed.

Lemma add_habit_global_trimmed entry s :
  Forall trimmed (habits s) → Forall trimmed (habits (add_habit_global entry s)).
Proof.
  intros Hall. unfold add_habit_global.
  destruct (truthy (strip entry)) eqn:Ht; cbn [negb]; [|done].
  destruct (py_in (strip entry) (habits s)); [done|]. cbn [habits].
  apply Forall_app. split; [done|].
  apply Forall_singleton. by apply strip_trimmed.
Qed.

Lemma edit_habit_trimmed old_habit dialog s :
  Forall trimmed (habits s) →
  Forall trimmed (habits (edit_habit old_habit dialog s).2).
Proof.
  intros Hall. unfold edit_habit, try_except, mbind, get, put, lift, mret.
  destruct dialog as [new_habit|]; [|done].
  destruct (truthy new_habit && truthy (strip new_habit)
            && negb (bool_decide (new_habit = old_habit))) eqn:Hcond; [|done].
  apply andb_prop in Hcond as [Hcond _]. apply andb_prop in Hcond as [_ Ht].
  destruct (py_in (strip new_habit) (habits s)); [done|].
  destruct (py_index old_habit (habits s)) as [idx|]; [|done].
  cbn [snd habits]. apply Forall_insert; [done|]. by apply strip_trimmed.
Qed.

Lemma delete_habit_trimmed habit confirm s :
  Forall trimmed (habits s) →
  Forall trimmed (habits (delete_habit habit confirm s).2).
Proof.
  intros Hall. destruct (decide (habit ∈ habits s)) as [Hin|Hout];
    [|by rewrite delete_habit_absent].
  destruct confirm; [|by rewrite delete_habit_declined].
  destruct (first_occurrence habit (habits s) Hin) as (l1 & l2 & Hl & Hl1).
  rewrite (delete_habit_present habit s l1 l2 Hl Hl1). cbn [snd habits].
  rewrite Hl in Hall. apply Forall_app in Hall as [H1 H2].
  apply Forall_cons in H2 as [_ H2]. apply Forall_app. by split.
Qed.

Lemma one_day_update_habits s s' : one_day_update s s' → habits s' = habits s.
Proof. by intros [->|(date & r & r' & _ & _ & ->)]. Qed.

Lemma step_trimmed s s' :
  step s s' → Forall trimmed (habits s) → Forall trimmed (habits s').
Proof.
  intros Hstep Hall. destruct Hstep.
  - by rewrite (one_day_update_habits _ _ (update_habit_one_day _ _ _ _)).
  - by rewrite (one_day_update_habits _ _ (update_task_one_day _ _ _ _)).
  - by apply add_habit_global_trimmed.
  - rewrite add_habit_inline_global. by apply add_habit_global_trimmed.
  - by apply edit_habit_trimmed.
  - by apply delete_habit_trimmed.
  - unfold clear_all_habits. destruct (habits s) eqn:Hh; [by rewrite Hh|].
    destruct confirm; [apply Forall_nil_2 | by rewrite Hh].
  - unfold add_task_template. destruct (truthy (strip entry)); [|done].
    cbn [negb]. by destruct (py_in (strip entry) (task_templates s)).
  - by rewrite (one_day_update_habits _ _ (add_task_to_day_one_day _ _ _)).
  - by rewrite (one_day_update_habits _ _ (edit_task_one_day _ _ _ _)).
  - by rewrite (one_day_update_habits _ _ (delete_task_one_day _ _ _ _)).
  - unfold clear_all_tasks. destruct (has_tasks s); [|done].
    cbn [negb]. by destruct confirm.
Qed.

(** The habit names stay trimmed and non-empty: when the loaded document
    gives no habit list, or a list of trimmed non-empty names, every name of
    the global habit list is trimmed and non-empty after start-up and after
    any sequence of callbacks. *)
Lemma habit_names_invariant stored_data now s :
  Forall trimmed (default default_habits (stored_habits stored_data)) →
  rtc step (startup stored_data now) s →
  Forall trimmed (habits s).
Proof.
  intros Hall Hrun.
  assert (Hstart : Forall trimmed (habits (startup stored_data now))).
  { unfold startup.
    by destruct (initialize_week_data_lookup (get_week_start now)
                   (mkStore (default ∅ (stored_daily_data stored_data))
                      (default default_habits (stored_habits stored_data))
                      (default default_task_templates
                         (stored_task_templates stored_data)))
                   EmptyString) as (-> & _). }
  induction Hrun as [|s1 s2 s3 Hstep _ IH]; [done|].
  apply IH. by apply (step_trimmed s1).
Qed.

(** On every store the program reaches from a first run, each name of the
    habit list meets what [rename_habit_round_trip] asks of [a]. *)
Lemma reachable_habit_names now s a :
  rtc step (startup (mkStored None None None) now) s →
  a ∈ habits s → trimmed a ∧ NoDup (habits s).
Proof.
  intros Hrun Hin. split.
  - assert (Hall : Forall trimmed (habits s)).
    { apply (habit_names_invariant (mkStored None None None) now); [|done].
      apply default_habits_trimmed. }
    rewrite Forall_forall in Hall. by apply Hall.
  - assert (Hwf : well_formed
                    (mkStore ∅ default_habits default_task_templates)).
    { split; [apply default_habits_NoDup|]. split.
      - apply (bool_decide_unpack (NoDup default_task_templates)).
        vm_compute. exact I.
      - intros date r h Hr. cbn in Hr. by rewrite lookup_empty in Hr. }
    assert (Hinv : ∀ s0, rtc step (startup (mkStored None None None) now) s0 →
                         NoDup (habits s0)).
    { intros s0 Hrun0.
      assert (Hstart : well_formed (startup (mkStored None None None) now)).
      { unfold startup. by apply initialize_week_data_well_formed. }
      clear Hrun Hin.
      induction Hrun0 as [|s1 s2 s3 Hstep _ IH]; [by destruct Hstart|].
      apply IH. by apply (step_well_formed s1). }
    by apply Hinv.
Qed.
